(** * Stream state of the RatOS G-code post-processor

    A shallow embedding of [src/server/gcode-processor/State.ts] (classes
    [BookmarkedLine] and [State]) together with the pieces of the JavaScript
    run time that the class relies on (numbers and their two extreme
    constants, [Map], plain objects built by [Object.fromEntries], thrown
    errors).

    The collaborators that [State.ts] only imports (the Info Aggregate, the
    command model, the bookmark keys) are type parameters.  The per-line
    driver and the bookmark registry are not part of [State.ts]; they are
    modelled from the design document and every such definition says so. *)

From Stdlib Require Import ZArith QArith String List Bool Lia Permutation Sorted.
From Stdlib Require Import Ascii.
Import ListNotations.

Set Implicit Arguments.

(* ================================================================== *)
(** * JavaScript run-time model *)
(* ================================================================== *)

(** ** Completions: a call either returns or throws. *)

Inductive Completion (E A : Type) : Type :=
| Return (a : A)
| Throw (e : E).

Arguments Return {E A} a.
Arguments Throw {E A} e.

(** [errors.ts] is imported by [State.ts]; the only class used is
    [InternalError], built from a message. *)
Inductive Error : Type :=
| InternalError (message : string).

(** ** Optional, nullable slots: [T | null | undefined]. *)

Inductive Nullable (A : Type) : Type :=
| Undefined
| Null
| Value (a : A).

Arguments Undefined {A}.
Arguments Null {A}.
Arguments Value {A} a.

(** ** Numbers

    A finite IEEE-754 double is a rational number and the relational
    operators on finite doubles coincide with the order of the rationals.
    [State.ts] never computes with coordinates, it only stores and compares
    them, so no rounding is involved and [Q] carries them exactly.  Counters
    are integers far below 2^53 and are carried by [Z]. *)

Module Number.

(** [Number.MAX_VALUE] = (2^53 - 1) * 2^971, about 1.7976931348623157e308. *)
Definition MAX_VALUE : Q := ((2 ^ 53 - 1) * 2 ^ 971)%Z # 1.

(** [Number.MIN_VALUE] = 2^-1074, about 5e-324: the smallest POSITIVE
    double, not the most negative one. *)
Definition MIN_VALUE : Q := 1 # (2 ^ 1074)%positive.

(** [a < b] on finite numbers. *)
Definition lt (a b : Q) : bool :=
  match a ?= b with
  | Lt => true
  | _ => false
  end.

End Number.

(** ** Maps and plain objects with string keys

    [Map<string, string>] keeps its entries in insertion order and has unique
    keys.  A plain object keeps its own data properties in creation order,
    but enumerates them (ordinary [[OwnPropertyKeys]]) with the array-index
    keys first, in ascending numeric order, followed by the other string keys
    in creation order. *)

Module JS.

Definition Entry : Type := (string * string)%type.

(** [Map<string,string>], as the list of its entries in insertion order. *)
Definition Map : Type := list Entry.

(** Well-formed maps have pairwise distinct keys. *)
Definition Map_wf (m : Map) : Prop := NoDup (map fst m).

(** [m.entries()] *)
Definition Map_entries (m : Map) : list Entry := m.

(** [m.get(k)] *)
Fixpoint Map_get (m : Map) (k : string) : option string :=
  match m with
  | [] => None
  | (k', v) :: rest => if String.eqb k' k then Some v else Map_get rest k
  end.

(** A plain object: own data properties in creation order. *)
Record Object : Type := mkObject { props : list Entry }.

Definition emptyObject : Object := mkObject [].

Definition is_digit (c : ascii) : bool :=
  let n := nat_of_ascii c in (48 <=? n)%nat && (n <=? 57)%nat.

Definition digit_value (c : ascii) : N := N.of_nat (nat_of_ascii c - 48).

Fixpoint decimal_value (s : string) (acc : N) : option N :=
  match s with
  | EmptyString => Some acc
  | String c rest =>
      if is_digit c then decimal_value rest (10 * acc + digit_value c)%N
      else None
  end.

(** A property key is an array index when it is the canonical decimal
    spelling of an integer in the range 0 .. 2^32 - 2. *)
Definition array_index (k : string) : option N :=
  match k with
  | EmptyString => None
  | String c rest =>
      if Ascii.eqb c "0"%char
      then match rest with EmptyString => Some 0%N | _ => None end
      else match decimal_value k 0 with
           | Some n => if (n <? 2 ^ 32 - 1)%N then Some n else None
           | None => None
           end
  end.

Definition is_array_index (k : string) : bool :=
  match array_index k with Some _ => true | None => false end.

Definition index_of (k : string) : N :=
  match array_index k with Some n => n | None => 0%N end.

(** Replace the value of an existing property, keeping its position. *)
Fixpoint overwrite (k v : string) (l : list Entry) : list Entry :=
  match l with
  | [] => []
  | (k', v') :: rest =>
      if String.eqb k' k then (k', v) :: rest
      else (k', v') :: overwrite k v rest
  end.

Definition has_key (k : string) (l : list Entry) : bool :=
  existsb (fun e => String.eqb (fst e) k) l.

(** [CreateDataProperty(o, k, v)] *)
Definition CreateDataProperty (o : Object) (k v : string) : Object :=
  if has_key k (props o)
  then mkObject (overwrite k v (props o))
  else mkObject (props o ++ [(k, v)]).

(** [Object.fromEntries(entries)]: one [CreateDataProperty] per entry, in
    iteration order. *)
Definition Object_fromEntries (entries : list Entry) : Object :=
  fold_left (fun o e => CreateDataProperty o (fst e) (snd e)) entries
            emptyObject.

(** Insertion into a list of array-index properties kept in ascending
    index order. *)
Fixpoint insert_by_index (e : Entry) (l : list Entry) : list Entry :=
  match l with
  | [] => [e]
  | e' :: rest =>
      if (index_of (fst e) <=? index_of (fst e'))%N then e :: e' :: rest
      else e' :: insert_by_index e rest
  end.

Definition sort_by_index (l : list Entry) : list Entry :=
  fold_right insert_by_index [] l.

(** Ascending numeric index order. *)
Definition index_le (e1 e2 : Entry) : Prop :=
  (index_of (fst e1) <= index_of (fst e2))%N.

Definition keyed_by_index (e : Entry) : bool := is_array_index (fst e).
Definition keyed_by_name (e : Entry) : bool := negb (is_array_index (fst e)).

(** [Object.entries(o)]: the own enumerable string-keyed properties in
    [[OwnPropertyKeys]] order. *)
Definition Object_entries (o : Object) : list Entry :=
  sort_by_index (filter keyed_by_index (props o))
    ++ filter keyed_by_name (props o).

(** [Object.keys(o)] *)
Definition Object_keys (o : Object) : list string :=
  map fst (Object_entries o).

(** [o[k]] for an own property. *)
Definition Object_get (o : Object) (k : string) : option string :=
  Map_get (props o) k.

End JS.

(* ================================================================== *)
(** * State.ts *)
(* ================================================================== *)

Section StateDefinitions.

(** Imported types: [BookmarkKey] (Bookmark.ts), [MutableGCodeInfo]
    (GCodeInfo.ts) and [CommonGCodeCommand] (CommonGCodeCommand.ts).
    The last two are classes, so their values are objects and are truthy. *)
Context {BookmarkKey MutableGCodeInfo CommonGCodeCommand : Type}.

(** [class BookmarkedLine] *)
Record BookmarkedLine : Type := mkBookmarkedLine {
  line : string;
  bookmark : BookmarkKey
}.

(** [class State]: constructor parameters first, then the fields in
    declaration order, the private [#gcodeInfo] last. *)
Record State : Type := mkState {
  kPrinterHasIdex : bool;
  kQuickInpsectionOnly : bool;
  kAllowUnsupportedSlicerVersions : bool;
  onWarning : option (string -> string -> unit);
  (* Stream-scope fields *)
  currentLineNumber : Z;
  firstLine : option BookmarkedLine;
  startPrintLine : option BookmarkedLine;
  onLayerChange2Line : option BookmarkedLine;
  extruderTempLines : option (list BookmarkedLine);
  extruderTemps : option (list string);
  toolChangeCount : Z;
  firstMoveX : option string;
  firstMoveY : option string;
  minX : Q;
  maxX : Q;
  hasPurgeTower : option bool;
  configSection : option JS.Map;
  processingHasBeenFinalized : bool;
  usedTools : list string;
  (* Iteration-scope fields *)
  _cmd : Nullable CommonGCodeCommand;
  (* #gcodeInfo *)
  priv_gcodeInfo : option MutableGCodeInfo
}.

(** [new State(kPrinterHasIdex, kQuickInpsectionOnly,
    kAllowUnsupportedSlicerVersions, onWarning)] with the field
    initialisers of the class body. *)
Definition new_State (idex quick allowUnsupported : bool)
    (warn : option (string -> string -> unit)) : State :=
  {| kPrinterHasIdex := idex;
     kQuickInpsectionOnly := quick;
     kAllowUnsupportedSlicerVersions := allowUnsupported;
     onWarning := warn;
     currentLineNumber := -1;
     firstLine := None;
     startPrintLine := None;
     onLayerChange2Line := None;
     extruderTempLines := None;
     extruderTemps := None;
     toolChangeCount := 0;
     firstMoveX := None;
     firstMoveY := None;
     minX := Number.MAX_VALUE;
     maxX := Number.MIN_VALUE;
     hasPurgeTower := None;
     configSection := None;
     processingHasBeenFinalized := false;
     usedTools := [];
     _cmd := Undefined;
     priv_gcodeInfo := None |}.

(** Assignments to single fields (everything else is copied). *)

Definition set__cmd (c : Nullable CommonGCodeCommand) (s : State) : State :=
  mkState (kPrinterHasIdex s) (kQuickInpsectionOnly s)
    (kAllowUnsupportedSlicerVersions s) (onWarning s)
    (currentLineNumber s) (firstLine s) (startPrintLine s)
    (onLayerChange2Line s) (extruderTempLines s) (extruderTemps s)
    (toolChangeCount s) (firstMoveX s) (firstMoveY s) (minX s) (maxX s)
    (hasPurgeTower s) (configSection s) (processingHasBeenFinalized s)
    (usedTools s) c (priv_gcodeInfo s).

Definition set_priv_gcodeInfo (g : option MutableGCodeInfo) (s : State)
  : State :=
  mkState (kPrinterHasIdex s) (kQuickInpsectionOnly s)
    (kAllowUnsupportedSlicerVersions s) (onWarning s)
    (currentLineNumber s) (firstLine s) (startPrintLine s)
    (onLayerChange2Line s) (extruderTempLines s) (extruderTemps s)
    (toolChangeCount s) (firstMoveX s) (firstMoveY s) (minX s) (maxX s)
    (hasPurgeTower s) (configSection s) (processingHasBeenFinalized s)
    (usedTools s) (_cmd s) g.

Definition set_currentLineNumber (n : Z) (s : State) : State :=
  mkState (kPrinterHasIdex s) (kQuickInpsectionOnly s)
    (kAllowUnsupportedSlicerVersions s) (onWarning s)
    n (firstLine s) (startPrintLine s)
    (onLayerChange2Line s) (extruderTempLines s) (extruderTemps s)
    (toolChangeCount s) (firstMoveX s) (firstMoveY s) (minX s) (maxX s)
    (hasPurgeTower s) (configSection s) (processingHasBeenFinalized s)
    (usedTools s) (_cmd s) (priv_gcodeInfo s).

Definition set_toolChangeCount (n : Z) (s : State) : State :=
  mkState (kPrinterHasIdex s) (kQuickInpsectionOnly s)
    (kAllowUnsupportedSlicerVersions s) (onWarning s)
    (currentLineNumber s) (firstLine s) (startPrintLine s)
    (onLayerChange2Line s) (extruderTempLines s) (extruderTemps s)
    n (firstMoveX s) (firstMoveY s) (minX s) (maxX s)
    (hasPurgeTower s) (configSection s) (processingHasBeenFinalized s)
    (usedTools s) (_cmd s) (priv_gcodeInfo s).

Definition set_minX (x : Q) (s : State) : State :=
  mkState (kPrinterHasIdex s) (kQuickInpsectionOnly s)
    (kAllowUnsupportedSlicerVersions s) (onWarning s)
    (currentLineNumber s) (firstLine s) (startPrintLine s)
    (onLayerChange2Line s) (extruderTempLines s) (extruderTemps s)
    (toolChangeCount s) (firstMoveX s) (firstMoveY s) x (maxX s)
    (hasPurgeTower s) (configSection s) (processingHasBeenFinalized s)
    (usedTools s) (_cmd s) (priv_gcodeInfo s).

Definition set_maxX (x : Q) (s : State) : State :=
  mkState (kPrinterHasIdex s) (kQuickInpsectionOnly s)
    (kAllowUnsupportedSlicerVersions s) (onWarning s)
    (currentLineNumber s) (firstLine s) (startPrintLine s)
    (onLayerChange2Line s) (extruderTempLines s) (extruderTemps s)
    (toolChangeCount s) (firstMoveX s) (firstMoveY s) (minX s) x
    (hasPurgeTower s) (configSection s) (processingHasBeenFinalized s)
    (usedTools s) (_cmd s) (priv_gcodeInfo s).

Definition set_configSection (m : option JS.Map) (s : State) : State :=
  mkState (kPrinterHasIdex s) (kQuickInpsectionOnly s)
    (kAllowUnsupportedSlicerVersions s) (onWarning s)
    (currentLineNumber s) (firstLine s) (startPrintLine s)
    (onLayerChange2Line s) (extruderTempLines s) (extruderTemps s)
    (toolChangeCount s) (firstMoveX s) (firstMoveY s) (minX s) (maxX s)
    (hasPurgeTower s) m (processingHasBeenFinalized s)
    (usedTools s) (_cmd s) (priv_gcodeInfo s).

Definition set_processingHasBeenFinalized (b : bool) (s : State) : State :=
  mkState (kPrinterHasIdex s) (kQuickInpsectionOnly s)
    (kAllowUnsupportedSlicerVersions s) (onWarning s)
    (currentLineNumber s) (firstLine s) (startPrintLine s)
    (onLayerChange2Line s) (extruderTempLines s) (extruderTemps s)
    (toolChangeCount s) (firstMoveX s) (firstMoveY s) (minX s) (maxX s)
    (hasPurgeTower s) (configSection s) b
    (usedTools s) (_cmd s) (priv_gcodeInfo s).

Definition set_usedTools (l : list string) (s : State) : State :=
  mkState (kPrinterHasIdex s) (kQuickInpsectionOnly s)
    (kAllowUnsupportedSlicerVersions s) (onWarning s)
    (currentLineNumber s) (firstLine s) (startPrintLine s)
    (onLayerChange2Line s) (extruderTempLines s) (extruderTemps s)
    (toolChangeCount s) (firstMoveX s) (firstMoveY s) (minX s) (maxX s)
    (hasPurgeTower s) (configSection s) (processingHasBeenFinalized s)
    l (_cmd s) (priv_gcodeInfo s).

(** [resetIterationState() { this._cmd = undefined; }] *)
Definition resetIterationState (s : State) : State :=
  set__cmd Undefined s.

(** [get gcodeInfo()]: throws while [#gcodeInfo] is falsy, that is, unset. *)
Definition gcodeInfo (s : State) : Completion Error MutableGCodeInfo :=
  match priv_gcodeInfo s with
  | None => Throw (InternalError "gcodeInfo has not been set yet.")
  | Some g => Return g
  end.

(** [set gcodeInfo(value)] *)
Definition set_gcodeInfo (value : MutableGCodeInfo) (s : State) : State :=
  set_priv_gcodeInfo (Some value) s.

(** [get gcodeInfoOrUndefined()] *)
Definition gcodeInfoOrUndefined (s : State) : option MutableGCodeInfo :=
  priv_gcodeInfo s.

(** [get configSectionAsObject()] *)
Definition configSectionAsObject (s : State) : option JS.Object :=
  let configSectionEntries := option_map JS.Map_entries (configSection s) in
  match configSectionEntries with
  | Some entries => Some (JS.Object_fromEntries entries)
  | None => None
  end.

(** The methods of [State] that write to the instance, as calls that
    complete normally or throw. *)
Inductive Mutator : Type :=
| CallResetIterationState
| CallSetGcodeInfo (value : MutableGCodeInfo).

Definition invoke (m : Mutator) (s : State) : Completion Error State :=
  match m with
  | CallResetIterationState => Return (resetIterationState s)
  | CallSetGcodeInfo value => Return (set_gcodeInfo value s)
  end.

End StateDefinitions.

Arguments BookmarkedLine : clear implicits.
Arguments State : clear implicits.
Arguments Mutator : clear implicits.

(* ================================================================== *)
(** * The per-line driver *)
(* ================================================================== *)

Section Driver.

Context {BookmarkKey MutableGCodeInfo CommonGCodeCommand : Type}.

Local Abbreviation State := (State BookmarkKey MutableGCodeInfo CommonGCodeCommand).

(** The command model is an external collaborator: the classifier of a
    line, and the two readings of a command that the stream state cares
    about (the X coordinate of a move, the tool of a tool change). *)
Variable classify : string -> option CommonGCodeCommand.
Variable moveX : CommonGCodeCommand -> option Q.
Variable toolChange : CommonGCodeCommand -> option string.

(** Modelled from the spec: the handler that maintains the bounding
    interval is not in State.ts.  "[minX]/[maxX] begin at the numeric
    extremes in the direction that guarantees the first real update always
    replaces them": an update replaces [minX] by a smaller X and [maxX] by
    a larger X. *)
Definition observeX (x : Q) (s : State) : State :=
  let s1 := if Number.lt x (minX s) then set_minX x s else s in
  if Number.lt (maxX s1) x then set_maxX x s1 else s1.

(** Modelled from the spec: the tool-change handler is not in State.ts.
    "[usedTools] records each distinct tool identifier exactly once, in
    first-use order (append-only, set-like dedup over an ordered
    sequence)"; "[toolChangeCount] increases only when a recognized
    tool-change command is processed". *)
Definition recordToolChange (t : string) (s : State) : State :=
  let s1 := set_toolChangeCount (toolChangeCount s + 1) s in
  if existsb (String.eqb t) (usedTools s1) then s1
  else set_usedTools (usedTools s1 ++ [t]) s1.

(** Modelled from the spec: the action pipeline is not in State.ts; of its
    effects on the stream state only the two handlers above are kept. *)
Definition runActions (c : CommonGCodeCommand) (s : State) : State :=
  let s1 := match moveX c with Some x => observeX x s | None => s end in
  match toolChange c with Some t => recordToolChange t s1 | None => s1 end.

(** Modelled from the spec: the loop over the input lines is not in
    State.ts.  "For each input line, Iteration State is reset, the line is
    classified into a Command, the Action Pipeline runs"; and
    "[currentLineNumber] ... increases monotonically by exactly one per
    processed input line".  An unclassifiable line leaves the command slot
    as the reset left it. *)
Definition processLine (s : State) (l : string) : State :=
  let s1 := resetIterationState s in
  let s2 := set_currentLineNumber (currentLineNumber s1 + 1) s1 in
  match classify l with
  | Some c => runActions c (set__cmd (Value c) s2)
  | None => s2
  end.

(** Modelled from the spec: the pass over "an ordered sequence of text
    lines", one [processLine] per line, in order. *)
Definition processLines (s : State) (ls : list string) : State :=
  fold_left processLine ls s.

(** The X coordinates and the tools met in a sequence of lines, in order. *)
Definition observedX (ls : list string) : list Q :=
  flat_map (fun l => match classify l with
                     | Some c => match moveX c with Some x => [x] | None => [] end
                     | None => []
                     end) ls.

Definition toolSequence (ls : list string) : list string :=
  flat_map (fun l => match classify l with
                     | Some c => match toolChange c with Some t => [t] | None => [] end
                     | None => []
                     end) ls.

End Driver.

(** The reading of "each tool exactly once, ordered by first occurrence" as
    a function on the sequence of tools: keep an element, drop its later
    repetitions. *)
Fixpoint first_occurrences (ts : list string) : list string :=
  match ts with
  | [] => []
  | t :: rest =>
      t :: filter (fun u => negb (String.eqb t u)) (first_occurrences rest)
  end.

(* ================================================================== *)
(** * The bookmark registry *)
(* ================================================================== *)

Module Bookmark.

(** Modelled from the spec: Bookmark.ts is not available.  "Opaque
    identity tokens ...: a small value type carrying an index into an
    internally owned, append-only slot table"; the run that minted the key
    is part of it, so that a key of another run is recognisably foreign. *)
Record BookmarkKey : Type := mkBookmarkKey {
  keyRun : nat;
  keyIndex : nat
}.

(** Modelled from the spec: one slot of the slot table, "resolution looks
    up by index and marks the slot consumed". *)
Record Slot : Type := mkSlot {
  slotText : string;
  slotConsumed : bool
}.

(** Modelled from the spec: the registry of one run. *)
Record Registry : Type := mkRegistry {
  run : nat;
  slots : list Slot
}.

(** Modelled from the spec: the contract violations of sections 4.1, 4.2
    and 7. *)
Inductive ContractViolation : Type :=
| StateAlreadyFinalized
| BookmarkAlreadyResolved
| BookmarkUnknown.

(** Modelled from the spec: the registry a run starts with, no slot issued. *)
Definition newRegistry (r : nat) : Registry := mkRegistry r [].

(** Modelled from the spec: "[createBookmark(lineText) ->
    (emittedPlaceholder, BookmarkKey)]", the pair being the
    [BookmarkedLine] of State.ts. *)
Definition createBookmark (reg : Registry) (lineText : string)
  : Registry * BookmarkedLine BookmarkKey :=
  (mkRegistry (run reg) (slots reg ++ [mkSlot lineText false]),
   mkBookmarkedLine lineText (mkBookmarkKey (run reg) (length (slots reg)))).

(** Modelled from the spec: the slot a key designates in a registry, if the
    key is one of its own ("originates from this run"). *)
Definition slotOf (reg : Registry) (key : BookmarkKey) : option Slot :=
  if Nat.eqb (keyRun key) (run reg)
  then nth_error (slots reg) (keyIndex key)
  else None.

(** Modelled from the spec: the write into the slot table at an index. *)
Fixpoint replaceSlot (l : list Slot) (i : nat) (x : Slot) : list Slot :=
  match l, i with
  | [], _ => []
  | _ :: rest, O => x :: rest
  | y :: rest, S j => y :: replaceSlot rest j x
  end.

(** Modelled from the spec: "[resolve(key, newText) -> success]: rewrites
    the content previously associated with [key].  Fails with a 'bookmark
    already resolved' error if called twice for the same key, and with
    'bookmark unknown' if the key does not originate from this run.
    Succeeds only while the owning Stream State has not finalized"; after
    finalization it "fails with a fatal 'state already finalized'
    error". *)
Definition resolve {G C : Type} (owner : State BookmarkKey G C)
    (reg : Registry) (key : BookmarkKey) (newText : string)
  : Completion ContractViolation Registry :=
  if processingHasBeenFinalized owner then Throw StateAlreadyFinalized
  else match slotOf reg key with
       | None => Throw BookmarkUnknown
       | Some slot =>
           if slotConsumed slot then Throw BookmarkAlreadyResolved
           else Return (mkRegistry (run reg)
                          (replaceSlot (slots reg) (keyIndex key)
                             (mkSlot newText true)))
       end.

(** Modelled from the spec: the text currently held for a key. *)
Definition textOf (reg : Registry) (key : BookmarkKey) : option string :=
  option_map slotText (slotOf reg key).

(** Modelled from the spec: the end of the pass is not in State.ts.
    "[Finalized]: entered once, irreversibly, when the pass completes";
    "[processingHasBeenFinalized] transitions exactly once from false to
    true". *)
Definition finalizeProcessing {K G C : Type} (s : State K G C)
  : Completion ContractViolation (State K G C) :=
  if processingHasBeenFinalized s then Throw StateAlreadyFinalized
  else Return (set_processingHasBeenFinalized true s).

End Bookmark.

(* ================================================================== *)
(** * A concrete command model for closed examples *)
(* ================================================================== *)

Module Demo.

(** A two-constructor stand-in for the external command model. *)
Inductive Command : Type :=
| Move (x : Q)
| Tool (t : string).

Definition table : list (string * Command) :=
  [ ("G1 X5",  Move 5);
    ("G1 X-3", Move (-3));
    ("G1 X10", Move 10);
    ("G1 X0",  Move 0);
    ("T0", Tool "0");
    ("T1", Tool "1");
    ("T2", Tool "2") ]%string.

Fixpoint lookup (l : string) (t : list (string * Command)) : option Command :=
  match t with
  | [] => None
  | (k, c) :: rest => if String.eqb k l then Some c else lookup l rest
  end.

Definition classify (l : string) : option Command := lookup l table.

Definition moveX (c : Command) : option Q :=
  match c with Move x => Some x | Tool _ => None end.

Definition toolChange (c : Command) : option string :=
  match c with Tool t => Some t | Move _ => None end.

Definition St : Type := State Bookmark.BookmarkKey unit Command.

Definition fresh : St := new_State false false false None.

Definition run (ls : list string) : St :=
  processLines classify moveX toolChange fresh ls.

Definition observedX_of (ls : list string) : list Q :=
  observedX classify moveX ls.

Definition toolSequence_of (ls : list string) : list string :=
  toolSequence classify toolChange ls.

End Demo.

(* ================================================================== *)
(** * Sequences of calls on a State *)
(* ================================================================== *)

(** A sequence of method calls on one instance, in program order; a throw
    ends the sequence. *)
Fixpoint invokeAll {K G C : Type} (ms : list (Mutator G)) (s : State K G C)
  : Completion Error (State K G C) :=
  match ms with
  | [] => Return s
  | m :: rest =>
      match invoke m s with
      | Return s' => invokeAll rest s'
      | Throw e => Throw e
      end
  end.

(** The argument of the last [gcodeInfo] setter call of a sequence, or the
    given start when the sequence has none. *)
Fixpoint lastAttached {G : Type} (ms : list (Mutator G)) (start : option G)
  : option G :=
  match ms with
  | [] => start
  | CallResetIterationState :: rest => lastAttached rest start
  | CallSetGcodeInfo value :: rest => lastAttached rest (Some value)
  end.

(** Whether a sequence calls [resetIterationState]. *)
Definition callsReset {G : Type} (ms : list (Mutator G)) : bool :=
  existsb (fun m => match m with
                    | CallResetIterationState => true
                    | CallSetGcodeInfo _ => false
                    end) ms.

(* ================================================================== *)
(** * The file-changes list (src/unnamed/part_000) *)
(* ================================================================== *)

(** The React components [ChangedFile] and [FileChanges].  What is embedded
    is their logic: the flags [ChangedFile] derives from its props, the
    memoised [actions] and [fileState] (both [useMemo] calls list every
    value they read, so they are functions of those values), the texts it
    renders, and the four state updaters of [FileChanges].

    [FilesToWriteWithState] is declared elsewhere; the fields read here are
    [fileName], [state], [overwrite], [exists], [changedFromConfig] and
    [changedOnDisk].  The flag fields are carried as [boolean | undefined]
    and read through JavaScript truthiness, which is how the component reads
    them (every [||]/[&&] result below is only ever tested, and the
    truthiness of [a || b] and [a && b] is the disjunction and conjunction
    of the truthiness of [a] and [b]). *)

Module FileChanges.

(** [type FileState] as used by [statuses] and the comparisons. *)
Inductive FileState : Type := created | unchanged | changed | removed.

(** The values of [Intents] that the component produces. *)
Inductive Intents : Type := indeterminate | warning | info | danger | success.

(** The lucide icons the actions carry. *)
Inductive LucideIcon : Type := Check | ChevronLast | FileClock | Plus | Trash.

(** The badge colours. *)
Inductive BadgeColor : Type := sky | yellow | green | rose | gray.

Definition state_is (a b : FileState) : bool :=
  match a, b with
  | created, created | unchanged, unchanged
  | changed, changed | removed, removed => true
  | _, _ => false
  end.

Definition truthy (v : option bool) : bool :=
  match v with Some true => true | _ => false end.

Record FileToWrite : Type := mkFileToWrite {
  fileName : string;
  state : FileState;
  overwrite : option bool;
  file_exists : option bool;
  changedFromConfig : option bool;
  changedOnDisk : option bool
}.

(** The two pieces of [useState] of [FileChanges]. *)
Record Marks : Type := mkMarks {
  filesToOverwrite : list string;
  filesToIgnore : list string
}.

(** [useState<string[]>([])], twice. *)
Definition initialMarks : Marks := mkMarks [] [].

(** [files.includes(fileName)] *)
Definition includes (files : list string) (name : string) : bool :=
  existsb (String.eqb name) files.

(** [files.includes(fileName) ? files : [...files, fileName]] *)
Definition addFile (name : string) (files : list string) : list string :=
  if includes files name then files else files ++ [name].

(** [files.includes(fileName) ? files.filter((file) => file !== fileName)
    : files] *)
Definition removeFile (name : string) (files : list string) : list string :=
  if includes files name
  then filter (fun file => negb (String.eqb file name)) files
  else files.

Definition addFileToOverwrite (name : string) (m : Marks) : Marks :=
  mkMarks (addFile name (filesToOverwrite m)) (filesToIgnore m).

Definition removeFileToOverwrite (name : string) (m : Marks) : Marks :=
  mkMarks (removeFile name (filesToOverwrite m)) (filesToIgnore m).

Definition addFileToIgnore (name : string) (m : Marks) : Marks :=
  mkMarks (filesToOverwrite m) (addFile name (filesToIgnore m)).

Definition removeFileToIgnore (name : string) (m : Marks) : Marks :=
  mkMarks (filesToOverwrite m) (removeFile name (filesToIgnore m)).

(** The props [FileChanges] passes for one file. *)
Definition isMarkedIgnoredIn (m : Marks) (file : FileToWrite) : bool :=
  includes (filesToIgnore m) (fileName file).

Definition isMarkedOverwrittenIn (m : Marks) (file : FileToWrite) : bool :=
  includes (filesToOverwrite m) (fileName file).

(** [type Action] *)
Record Action : Type := mkAction {
  action : string -> Marks -> Marks;
  intent : Intents;
  title : string;
  icon : LucideIcon
}.

Section ChangedFile.

Variable file : FileToWrite.
Variable isMarkedOverwritten : bool.
Variable isMarkedIgnored : bool.

Definition wouldOtherwiseBeWritten : bool :=
  (state_is (state file) changed
     && (truthy (overwrite file) || isMarkedOverwritten))
  || state_is (state file) created
  || state_is (state file) removed.

Definition isOverwritable : bool := state_is (state file) changed.

Definition isIgnorable : bool :=
  state_is (state file) created
  || state_is (state file) removed
  || state_is (state file) changed.

Definition isIgnored : bool := isMarkedIgnored.

Definition isOverwritten : bool :=
  isMarkedOverwritten
  || (truthy (overwrite file) && truthy (file_exists file)).

(** [file.changedFromConfig === true] *)
Definition changedFromConfig_is_true : bool :=
  match changedFromConfig file with Some true => true | _ => false end.

Definition needsExplicitAction : bool :=
  isIgnorable && negb isIgnored && negb isOverwritten
  && negb wouldOtherwiseBeWritten && changedFromConfig_is_true.

Definition isDeleted : bool :=
  state_is (state file) removed && negb isIgnored.

Definition isCreated : bool :=
  state_is (state file) created && negb isIgnored.

Definition isChanged : bool :=
  state_is (state file) changed && negb isIgnored && isOverwritten.

(** The five slots of the [actions] memo, [null] being [None]. *)

Definition skip : option Action :=
  if isOverwritten && negb isIgnored
  then Some (mkAction
               (if isMarkedOverwritten then removeFileToOverwrite
                else addFileToIgnore)
               indeterminate "Skip" ChevronLast)
  else None.

Definition overwriteAction : option Action :=
  if isOverwritten && negb isIgnored then None
  else if isOverwritable
  then Some (mkAction
               (if isMarkedIgnored
                then fun f m => addFileToOverwrite f (removeFileToIgnore f m)
                else addFileToOverwrite)
               warning "Accept changes" Check)
  else None.

Definition ignore : option Action :=
  if isIgnorable && negb isIgnored && negb isOverwritten
  then Some (mkAction addFileToIgnore
               (if needsExplicitAction
                then (if String.eqb (fileName file) "printer.cfg"
                      then info else danger)
                else indeterminate)
               "Keep existing file" FileClock)
  else None.

Definition remove : option Action :=
  if isIgnorable && negb isIgnored && negb isOverwritten then None
  else if isIgnored
  then (if state_is (state file) removed
        then Some (mkAction removeFileToIgnore danger "Delete" Trash)
        else None)
  else None.

Definition write : option Action :=
  if isIgnorable && negb isIgnored && negb isOverwritten then None
  else if isIgnored
  then (if state_is (state file) removed then None
        else if isIgnorable && negb isOverwritable
        then Some (mkAction removeFileToIgnore success "Write" Plus)
        else None)
  else None.

(** [[skip, ignore, overwrite, write, remove].filter(Boolean)] *)
Definition present (slots : list (option Action)) : list Action :=
  flat_map (fun slot => match slot with Some a => [a] | None => [] end) slots.

Definition actions : list Action :=
  if String.eqb (fileName file) "RatOS.cfg" then []
  else present [skip; ignore; overwriteAction; write; remove].

Definition fileState : Intents :=
  if needsExplicitAction then danger
  else if state_is (state file) changed
  then (if (isIgnored && truthy (overwrite file))
           || (isOverwritten && negb (truthy (overwrite file)))
        then warning
        else if isOverwritten then success
        else indeterminate)
  else if state_is (state file) created
  then (if isIgnored then danger else success)
  else if state_is (state file) removed
  then (if negb isIgnored then warning else indeterminate)
  else indeterminate.

(** The [color] of the first badge. *)
Definition badgeColor : BadgeColor :=
  match state file with
  | changed => if negb (truthy (changedFromConfig file)) then sky else yellow
  | created => green
  | removed => rose
  | unchanged => gray
  end.

(** The text of the first badge. *)
Definition badgeText : string :=
  match state file with
  | changed =>
      if truthy (changedFromConfig file) then "Pending changes"
      else "Changed on disk"
  | created => "New file"
  | removed => "Deleted"
  | unchanged => "No updates"
  end.

(** The paragraph under the file name: of its four children the one for the
    file's state renders a text, the others render nothing. *)
Definition description : string :=
  match state file with
  | changed =>
      if isOverwritten && negb isIgnored
      then "File will be backed up and overwritten."
           ++ (if negb (String.eqb (fileName file) "RatOS.cfg")
               then " Any changes you've made can be recovered from the backup."
               else "")
      else if negb needsExplicitAction then "File will be skipped."
      else "Please review the changes and make a decision."
  | created =>
      if isIgnored then "File will be skipped." else "File will be created."
  | removed =>
      if negb isIgnored then "File will be deleted."
      else "File will remain untouched."
  | unchanged =>
      if truthy (changedOnDisk file) then "File has user modifications."
      else "File remains untouched."
  end.

(** The right-hand control: the "Review changes" button or the check mark. *)
Definition showsReviewButton : bool := needsExplicitAction.

End ChangedFile.

(** [ChangedFile] as [FileChanges] renders it for one file. *)
Definition actionsIn (m : Marks) (file : FileToWrite) : list Action :=
  actions file (isMarkedOverwrittenIn m file) (isMarkedIgnoredIn m file).

Definition needsExplicitActionIn (m : Marks) (file : FileToWrite) : bool :=
  needsExplicitAction file (isMarkedOverwrittenIn m file)
    (isMarkedIgnoredIn m file).

(** The click handler of an action button: [a.action(file.fileName)]. *)
Definition click (a : Action) (file : FileToWrite) (m : Marks) : Marks :=
  action a (fileName file) m.

End FileChanges.

(* ================================================================== *)
(** * Facts about State.ts *)
(* ================================================================== *)

Section StateFacts.

Context {BookmarkKey MutableGCodeInfo CommonGCodeCommand : Type}.

Local Abbreviation State := (State BookmarkKey MutableGCodeInfo CommonGCodeCommand).

Implicit Types s : State.

(** C7.  Whatever the run configuration, a freshly constructed [State]
    carries exactly that configuration, every mutable field holds its
    declared initialiser (line counter at the sentinel -1, tool-change count
    0, no used tools, not finalized, the bookmarked lines, first-move
    coordinates, purge-tower flag and configuration section absent, the
    command slot undefined), and reading [gcodeInfo] throws. *)
Theorem new_State_defaults (idex quick allowUnsupported : bool)
    (warn : option (string -> string -> unit)) :
  let s : State := new_State idex quick allowUnsupported warn in
  (kPrinterHasIdex s = idex
   /\ kQuickInpsectionOnly s = quick
   /\ kAllowUnsupportedSlicerVersions s = allowUnsupported
   /\ onWarning s = warn)
  /\ (currentLineNumber s = (-1)%Z
      /\ toolChangeCount s = 0%Z
      /\ usedTools s = []
      /\ processingHasBeenFinalized s = false
      /\ minX s = Number.MAX_VALUE
      /\ maxX s = Number.MIN_VALUE)
  /\ (firstLine s = None
      /\ startPrintLine s = None
      /\ onLayerChange2Line s = None
      /\ extruderTempLines s = None
      /\ extruderTemps s = None
      /\ firstMoveX s = None
      /\ firstMoveY s = None
      /\ hasPurgeTower s = None
      /\ configSection s = None
      /\ _cmd s = Undefined)
  /\ gcodeInfoOrUndefined s = None
  /\ gcodeInfo s = Throw (InternalError "gcodeInfo has not been set yet.").
Proof.
  cbv zeta. repeat split.
Qed.

(** C10.  [resetIterationState] writes the command slot [_cmd], which
    becomes undefined, and nothing else: every stream-scope field, the
    attached Info Aggregate and the run configuration are those of the state
    it was called on. *)
Theorem resetIterationState_frame s :
  let s' := resetIterationState s in
  _cmd s' = Undefined
  /\ (kPrinterHasIdex s' = kPrinterHasIdex s
      /\ kQuickInpsectionOnly s' = kQuickInpsectionOnly s
      /\ kAllowUnsupportedSlicerVersions s' = kAllowUnsupportedSlicerVersions s
      /\ onWarning s' = onWarning s)
  /\ (currentLineNumber s' = currentLineNumber s
      /\ firstLine s' = firstLine s
      /\ startPrintLine s' = startPrintLine s
      /\ onLayerChange2Line s' = onLayerChange2Line s
      /\ extruderTempLines s' = extruderTempLines s
      /\ extruderTemps s' = extruderTemps s
      /\ toolChangeCount s' = toolChangeCount s
      /\ firstMoveX s' = firstMoveX s
      /\ firstMoveY s' = firstMoveY s
      /\ minX s' = minX s
      /\ maxX s' = maxX s
      /\ hasPurgeTower s' = hasPurgeTower s
      /\ configSection s' = configSection s
      /\ processingHasBeenFinalized s' = processingHasBeenFinalized s
      /\ usedTools s' = usedTools s)
  /\ gcodeInfoOrUndefined s' = gcodeInfoOrUndefined s
  /\ gcodeInfo s' = gcodeInfo s
  /\ s' = set__cmd Undefined s.
Proof.
  cbv zeta. unfold resetIterationState. repeat split.
Qed.

(** The getter succeeds exactly on what the optional getter sees. *)
Lemma gcodeInfo_Return s g :
  gcodeInfo s = Return g <-> gcodeInfoOrUndefined s = Some g.
Proof.
  unfold gcodeInfo, gcodeInfoOrUndefined.
  destruct (priv_gcodeInfo s) as [g' |]; split; intros H;
    try discriminate; inversion H; reflexivity.
Qed.

(** C4.  While nothing is attached ([#gcodeInfo] unset), the getter
    [gcodeInfo] throws the internal error and returns no value at all, and
    [gcodeInfoOrUndefined] yields undefined; once a value is attached with
    the setter, both getters yield that value. *)
Theorem gcodeInfo_before_and_after_attach s
    (Hunset : priv_gcodeInfo s = None) :
  gcodeInfo s = Throw (InternalError "gcodeInfo has not been set yet.")
  /\ (forall g, gcodeInfo s <> Return g)
  /\ gcodeInfoOrUndefined s = None
  /\ (forall value,
        gcodeInfo (set_gcodeInfo value s) = Return value
        /\ gcodeInfoOrUndefined (set_gcodeInfo value s) = Some value).
Proof.
  unfold gcodeInfo, gcodeInfoOrUndefined. rewrite Hunset.
  repeat split. intros g Hg. discriminate Hg.
Qed.

End StateFacts.

(* ================================================================== *)
(** * Facts about the per-line driver *)
(* ================================================================== *)

Section DriverFacts.

Context {BookmarkKey MutableGCodeInfo CommonGCodeCommand : Type}.

Local Abbreviation State := (State BookmarkKey MutableGCodeInfo CommonGCodeCommand).

Variable classify : string -> option CommonGCodeCommand.
Variable moveX : CommonGCodeCommand -> option Q.
Variable toolChange : CommonGCodeCommand -> option string.

Implicit Types s : State.

Local Abbreviation step := (processLine classify moveX toolChange).
Local Abbreviation steps := (processLines classify moveX toolChange).

Lemma observeX_frame x s :
  currentLineNumber (observeX x s) = currentLineNumber s
  /\ _cmd (observeX x s) = _cmd s
  /\ usedTools (observeX x s) = usedTools s
  /\ toolChangeCount (observeX x s) = toolChangeCount s.
Proof.
  unfold observeX.
  destruct (Number.lt x (minX s));
    match goal with |- context [if ?b then _ else _] => destruct b end;
    repeat split.
Qed.

Lemma recordToolChange_frame t s :
  currentLineNumber (recordToolChange t s) = currentLineNumber s
  /\ _cmd (recordToolChange t s) = _cmd s
  /\ minX (recordToolChange t s) = minX s
  /\ maxX (recordToolChange t s) = maxX s.
Proof.
  unfold recordToolChange.
  match goal with |- context [if ?b then _ else _] => destruct b end;
    repeat split.
Qed.

Lemma runActions_frame c s :
  currentLineNumber (runActions moveX toolChange c s) = currentLineNumber s
  /\ _cmd (runActions moveX toolChange c s) = _cmd s.
Proof.
  unfold runActions.
  destruct (moveX c) as [x |], (toolChange c) as [t |];
    repeat match goal with
           | |- context [recordToolChange ?t ?s] =>
               let H := fresh in
               pose proof (recordToolChange_frame t s) as H;
               destruct H as (-> & -> & _)
           | |- context [observeX ?x ?s] =>
               let H := fresh in
               pose proof (observeX_frame x s) as H;
               destruct H as (-> & -> & _)
           end; split; reflexivity.
Qed.

Lemma processLine_currentLineNumber s l :
  currentLineNumber (step s l) = (currentLineNumber s + 1)%Z.
Proof.
  unfold processLine. destruct (classify l) as [c |].
  - destruct (runActions_frame c
                (set__cmd (Value c)
                   (set_currentLineNumber
                      (currentLineNumber (resetIterationState s) + 1)
                      (resetIterationState s)))) as [-> _].
    reflexivity.
  - reflexivity.
Qed.

Lemma processLines_currentLineNumber ls : forall s,
  currentLineNumber (steps s ls)
  = (currentLineNumber s + Z.of_nat (length ls))%Z.
Proof.
  unfold processLines.
  induction ls as [| l ls IH]; intros s; cbn [fold_left length].
  - lia.
  - rewrite IH, processLine_currentLineNumber. lia.
Qed.



(** C6.  [resetIterationState] leaves the command slot undefined on every
    state; hence, when line A is classified as [a] and line B cannot be
    classified, the slot holds [a] after A and is undefined after B. *)
Theorem iteration_isolation s (A B : string) (a : CommonGCodeCommand)
    (HA : classify A = Some a) (HB : classify B = None) :
  _cmd (resetIterationState s) = Undefined
  /\ _cmd (step s A) = Value a
  /\ _cmd (step (step s A) B) = Undefined.
Proof.
  split; [reflexivity | split].
  - unfold processLine. rewrite HA.
    match goal with
    | |- _cmd (runActions _ _ ?c ?t) = _ =>
        destruct (runActions_frame c t) as [_ ->]
    end.
    reflexivity.
  - unfold processLine at 1. rewrite HB. reflexivity.
Qed.

End DriverFacts.



Lemma gcodeInfo_before_and_after_attach_witness :
  priv_gcodeInfo Demo.fresh = None
  /\ gcodeInfo Demo.fresh
     = Throw (InternalError "gcodeInfo has not been set yet.")
  /\ gcodeInfoOrUndefined Demo.fresh = None
  /\ gcodeInfo (set_gcodeInfo tt Demo.fresh) = Return tt.
Proof.
  pose proof (@gcodeInfo_before_and_after_attach _ _ _ Demo.fresh eq_refl)
    as (H1 & _ & H3 & H4).
  split; [reflexivity |].
  split; [exact H1 |].
  split; [exact H3 |].
  exact (proj1 (H4 tt)).
Defined.

Lemma iteration_isolation_witness :
  Demo.classify "T1" = Some (Demo.Tool "1")
  /\ Demo.classify "; a comment" = None
  /\ _cmd (processLine Demo.classify Demo.moveX Demo.toolChange
             (processLine Demo.classify Demo.moveX Demo.toolChange
                Demo.fresh "T1") "; a comment") = Undefined.
Proof.
  split; [reflexivity |].
  split; [reflexivity |].
  exact (proj2 (proj2
    (@iteration_isolation _ _ _ Demo.classify Demo.moveX Demo.toolChange
       Demo.fresh "T1" "; a comment" (Demo.Tool "1") eq_refl eq_refl))).
Defined.

(* ================================================================== *)
(** * Used tools *)
(* ================================================================== *)

Section FilterFacts.

Variable A : Type.
Implicit Types P Q : A -> bool.

Lemma filter_filter_and P Q (l : list A) :
  filter P (filter Q l) = filter (fun x => Q x && P x) l.
Proof.
  induction l as [| x l IH]; cbn [filter]; [reflexivity |].
  destruct (Q x); cbn [filter andb]; [destruct (P x) |]; now rewrite IH.
Qed.

Lemma filter_filter_absorb P Q (l : list A) :
  (forall x, P x = true -> Q x = true) ->
  filter P (filter Q l) = filter P l.
Proof.
  intros HPQ. rewrite filter_filter_and. apply filter_ext.
  intros x. destruct (P x) eqn:HP.
  - now rewrite (HPQ x HP).
  - apply andb_false_r.
Qed.

End FilterFacts.

Lemma first_occurrences_In ts : forall t,
  In t (first_occurrences ts) <-> In t ts.
Proof.
  induction ts as [| t0 ts IH]; intros t; cbn [first_occurrences In];
    [tauto |].
  rewrite filter_In, IH. destruct (String.eqb_spec t0 t) as [-> | Hne].
  - tauto.
  - cbn [negb]. tauto.
Qed.

Lemma first_occurrences_NoDup ts : NoDup (first_occurrences ts).
Proof.
  induction ts as [| t0 ts IH]; cbn [first_occurrences]; constructor.
  - rewrite filter_In, String.eqb_refl. cbn [negb]. intros [_ H].
    discriminate H.
  - now apply NoDup_filter.
Qed.

Lemma existsb_eqb_In (t : string) (acc : list string) :
  existsb (String.eqb t) acc = true <-> In t acc.
Proof.
  rewrite existsb_exists. split.
  - intros (u & Hu & Heq). apply String.eqb_eq in Heq. now subst.
  - intros Hin. exists t. split; [assumption | apply String.eqb_refl].
Qed.

(** The dedup-append step, seen on the sequence of tools still to come. *)
Lemma first_occurrences_seen (acc : list string) t ts :
  existsb (String.eqb t) acc = true ->
  filter (fun u => negb (existsb (String.eqb u) acc))
         (first_occurrences (t :: ts))
  = filter (fun u => negb (existsb (String.eqb u) acc))
           (first_occurrences ts).
Proof.
  intros Hseen. cbn [first_occurrences filter]. rewrite Hseen. cbn [negb].
  apply filter_filter_absorb. intros u Hu.
  destruct (String.eqb_spec t u) as [-> | _]; [| reflexivity].
  rewrite Hseen in Hu. discriminate Hu.
Qed.

Lemma first_occurrences_fresh (acc : list string) t ts :
  existsb (String.eqb t) acc = false ->
  acc ++ filter (fun u => negb (existsb (String.eqb u) acc))
           (first_occurrences (t :: ts))
  = (acc ++ [t])
      ++ filter (fun u => negb (existsb (String.eqb u) (acc ++ [t])))
           (first_occurrences ts).
Proof.
  intros Hfresh. cbn [first_occurrences filter]. rewrite Hfresh. cbn [negb].
  rewrite <- app_assoc. cbn [app]. do 2 f_equal.
  rewrite filter_filter_and. apply filter_ext. intros u.
  rewrite existsb_app. cbn [existsb]. rewrite orb_false_r, negb_orb.
  rewrite (String.eqb_sym u t). apply andb_comm.
Qed.

Section ToolFacts.

Context {BookmarkKey MutableGCodeInfo CommonGCodeCommand : Type}.

Local Abbreviation State := (State BookmarkKey MutableGCodeInfo CommonGCodeCommand).

Variable classify : string -> option CommonGCodeCommand.
Variable moveX : CommonGCodeCommand -> option Q.
Variable toolChange : CommonGCodeCommand -> option string.

Implicit Types s : State.

Local Abbreviation step := (processLine classify moveX toolChange).
Local Abbreviation steps := (processLines classify moveX toolChange).
Local Abbreviation tools := (toolSequence classify toolChange).

Lemma recordToolChange_usedTools t s :
  usedTools (recordToolChange t s)
  = if existsb (String.eqb t) (usedTools s) then usedTools s
    else usedTools s ++ [t].
Proof.
  unfold recordToolChange. cbn [usedTools set_toolChangeCount].
  destruct (existsb (String.eqb t) (usedTools s)); reflexivity.
Qed.

(** What one line does to [usedTools]. *)
Lemma processLine_usedTools s l :
  usedTools (step s l)
  = match tools [l] with
    | t :: _ =>
        if existsb (String.eqb t) (usedTools s) then usedTools s
        else usedTools s ++ [t]
    | [] => usedTools s
    end.
Proof.
  unfold processLine, toolSequence, runActions. cbn [flat_map].
  destruct (classify l) as [c |]; [| reflexivity].
  destruct (toolChange c) as [t |]; cbn [app].
  - rewrite recordToolChange_usedTools.
    destruct (moveX c) as [x |];
      [destruct (observeX_frame x
                   (set__cmd (Value c)
                      (set_currentLineNumber
                         (currentLineNumber (resetIterationState s) + 1)
                         (resetIterationState s)))) as (_ & _ & -> & _) |];
      reflexivity.
  - destruct (moveX c) as [x |];
      [destruct (observeX_frame x
                   (set__cmd (Value c)
                      (set_currentLineNumber
                         (currentLineNumber (resetIterationState s) + 1)
                         (resetIterationState s)))) as (_ & _ & -> & _) |];
      reflexivity.
Qed.

Lemma toolSequence_cons l ls : tools (l :: ls) = tools [l] ++ tools ls.
Proof.
  unfold toolSequence. cbn [flat_map]. now rewrite app_nil_r.
Qed.

Lemma toolSequence_single l : tools [l] = [] \/ exists t, tools [l] = [t].
Proof.
  unfold toolSequence. cbn [flat_map].
  destruct (classify l) as [c |]; [| now left].
  destruct (toolChange c) as [t |]; [right; now exists t | now left].
Qed.

Lemma processLines_usedTools ls : forall s,
  usedTools (steps s ls)
  = usedTools s
      ++ filter (fun u => negb (existsb (String.eqb u) (usedTools s)))
           (first_occurrences (tools ls)).
Proof.
  unfold processLines.
  induction ls as [| l ls IH]; intros s; cbn [fold_left].
  - cbn. now rewrite app_nil_r.
  - rewrite IH, processLine_usedTools, (toolSequence_cons l ls).
    destruct (toolSequence_single l) as [-> | [t ->]]; cbn [app];
      [reflexivity |].
    destruct (existsb (String.eqb t) (usedTools s)) eqn:Hseen.
    + now rewrite first_occurrences_seen.
    + now rewrite first_occurrences_fresh.
Qed.

(** C8.  Whatever the input, the [usedTools] of a run are the tools of its
    tool-change commands, each kept at its first occurrence and dropped at
    every later one: no tool is listed twice, the listed tools are exactly
    those that occur, and a processed line only ever appends. *)
Theorem usedTools_first_use_order idex quick allowUnsupported warn
    (ls : list string) :
  let used :=
    usedTools (steps (new_State idex quick allowUnsupported warn : State) ls)
  in
  used = first_occurrences (tools ls)
  /\ NoDup used
  /\ (forall t, In t used <-> In t (tools ls))
  /\ (forall s l, exists more, usedTools (step s l) = usedTools s ++ more).
Proof.
  cbv zeta.
  assert (Hused :
    usedTools (steps (new_State idex quick allowUnsupported warn : State) ls)
    = first_occurrences (tools ls)).
  { rewrite processLines_usedTools. cbn [usedTools new_State app existsb negb].
    induction (first_occurrences (tools ls)) as [| u l IH];
      [reflexivity | cbn [filter]; now rewrite IH]. }
  rewrite Hused. split; [reflexivity |].
  split; [apply first_occurrences_NoDup |].
  split; [intros t; apply first_occurrences_In |].
  intros s l. rewrite processLine_usedTools.
  destruct (tools [l]) as [| t _]; [exists []; now rewrite app_nil_r |].
  destruct (existsb (String.eqb t) (usedTools s));
    [exists []; now rewrite app_nil_r | now exists [t]].
Qed.

End ToolFacts.

(** The tool sequence 0,1,0,2,1 of the design document. *)
Example usedTools_0_1_0_2_1 :
  usedTools (Demo.run ["T0"; "T1"; "T0"; "T2"; "T1"]%string)
  = ["0"; "1"; "2"]%string.
Proof. reflexivity. Qed.

(* ================================================================== *)
(** * Bounding interval *)
(* ================================================================== *)

Lemma Number_lt_true a b : Number.lt a b = true -> a < b.
Proof.
  unfold Number.lt. destruct (a ?= b) eqn:E; try discriminate.
  intros _. now apply Qlt_alt.
Qed.

Lemma Number_lt_false a b : Number.lt a b = false -> b <= a.
Proof.
  unfold Number.lt. destruct (a ?= b) eqn:E; try discriminate; intros _.
  - apply Qeq_alt in E. rewrite E. apply Qle_refl.
  - apply Qlt_le_weak. now apply Qgt_alt.
Qed.

Lemma MIN_VALUE_is_positive : 0 < Number.MIN_VALUE.
Proof. reflexivity. Qed.

Lemma MIN_VALUE_below_MAX_VALUE : Number.MIN_VALUE < Number.MAX_VALUE.
Proof. unfold Qlt. vm_compute. reflexivity. Qed.

Section BoundsFacts.

Context {BookmarkKey MutableGCodeInfo CommonGCodeCommand : Type}.

Local Abbreviation State := (State BookmarkKey MutableGCodeInfo CommonGCodeCommand).

Variable classify : string -> option CommonGCodeCommand.
Variable moveX : CommonGCodeCommand -> option Q.
Variable toolChange : CommonGCodeCommand -> option string.

Implicit Types s : State.

Local Abbreviation step := (processLine classify moveX toolChange).
Local Abbreviation steps := (processLines classify moveX toolChange).
Local Abbreviation xs := (observedX classify moveX).

Lemma observeX_minX x s :
  minX (observeX x s) = if Number.lt x (minX s) then x else minX s.
Proof.
  unfold observeX. destruct (Number.lt x (minX s));
    match goal with |- context [if ?b then _ else _] => destruct b end;
    reflexivity.
Qed.

Lemma observeX_maxX x s :
  maxX (observeX x s) = if Number.lt (maxX s) x then x else maxX s.
Proof.
  unfold observeX. destruct (Number.lt x (minX s)); cbn [maxX set_minX];
    destruct (Number.lt (maxX s) x); reflexivity.
Qed.

Lemma processLine_minX s l :
  minX (step s l)
  = match xs [l] with
    | x :: _ => if Number.lt x (minX s) then x else minX s
    | [] => minX s
    end.
Proof.
  unfold processLine, observedX, runActions. cbn [flat_map].
  destruct (classify l) as [c |]; [| reflexivity].
  destruct (moveX c) as [x |]; cbn [app];
    destruct (toolChange c) as [t |];
    repeat match goal with
           | |- context [recordToolChange ?t ?s] =>
               destruct (recordToolChange_frame t s) as (_ & _ & -> & _)
           end;
    try rewrite observeX_minX; reflexivity.
Qed.

Lemma processLine_maxX s l :
  maxX (step s l)
  = match xs [l] with
    | x :: _ => if Number.lt (maxX s) x then x else maxX s
    | [] => maxX s
    end.
Proof.
  unfold processLine, observedX, runActions. cbn [flat_map].
  destruct (classify l) as [c |]; [| reflexivity].
  destruct (moveX c) as [x |]; cbn [app];
    destruct (toolChange c) as [t |];
    repeat match goal with
           | |- context [recordToolChange ?t ?s] =>
               destruct (recordToolChange_frame t s) as (_ & _ & _ & ->)
           end;
    try rewrite observeX_maxX; reflexivity.
Qed.

Lemma observedX_cons l ls : xs (l :: ls) = xs [l] ++ xs ls.
Proof.
  unfold observedX. cbn [flat_map]. now rewrite app_nil_r.
Qed.

Lemma observedX_single l : xs [l] = [] \/ exists x, xs [l] = [x].
Proof.
  unfold observedX. cbn [flat_map].
  destruct (classify l) as [c |]; [| now left].
  destruct (moveX c) as [x |]; [right; now exists x | now left].
Qed.

(** One line never shrinks the interval, and encloses the X it carries. *)
Lemma processLine_widens s l :
  minX (step s l) <= minX s /\ maxX s <= maxX (step s l)
  /\ forall x, In x (xs [l]) -> minX (step s l) <= x <= maxX (step s l).
Proof.
  rewrite processLine_minX, processLine_maxX.
  destruct (observedX_single l) as [-> | [x0 ->]].
  - repeat split; try apply Qle_refl; contradiction.
  - destruct (Number.lt x0 (minX s)) eqn:Hmin,
             (Number.lt (maxX s) x0) eqn:Hmax;
      try apply Number_lt_true in Hmin; try apply Number_lt_false in Hmin;
      try apply Number_lt_true in Hmax; try apply Number_lt_false in Hmax;
      (split; [| split; [| intros x [<- | []]; split]]);
      try apply Qle_refl; try assumption; now apply Qlt_le_weak.
Qed.

Lemma processLines_widen ls : forall s,
  minX (steps s ls) <= minX s /\ maxX s <= maxX (steps s ls).
Proof.
  unfold processLines.
  induction ls as [| l ls IH]; intros s; cbn [fold_left].
  - split; apply Qle_refl.
  - destruct (IH (step s l)) as [Hlo Hhi].
    destruct (processLine_widens s l) as (Hlo1 & Hhi1 & _).
    split; eapply Qle_trans; eassumption.
Qed.

(** After any input, the interval encloses every X that was observed; in
    particular [minX <= maxX] as soon as one X was observed. *)
Lemma processLines_enclose ls : forall s x,
  In x (xs ls) -> minX (steps s ls) <= x <= maxX (steps s ls).
Proof.
  induction ls as [| l ls IH]; intros s x Hin; [contradiction |].
  rewrite (observedX_cons l ls) in Hin. apply in_app_or in Hin.
  unfold processLines. cbn [fold_left]. fold (steps (step s l) ls).
  destruct Hin as [Hin | Hin].
  - destruct (processLine_widens s l) as (_ & _ & Hx).
    destruct (Hx x Hin) as [Hlo Hhi].
    destruct (processLines_widen ls (step s l)) as [Hlo' Hhi'].
    split; eapply Qle_trans; eassumption.
  - now apply IH.
Qed.

Lemma bounding_interval_is_valid ls s :
  xs ls <> [] -> minX (steps s ls) <= maxX (steps s ls).
Proof.
  intros Hne. destruct (xs ls) as [| x rest] eqn:E; [contradiction |].
  destruct (@processLines_enclose ls s x) as [Hlo Hhi].
  - rewrite E. now left.
  - eapply Qle_trans; eassumption.
Qed.

(** Without any X move both fields keep the values they started with. *)
Lemma processLines_no_moves ls : forall s,
  xs ls = [] ->
  minX (steps s ls) = minX s /\ maxX (steps s ls) = maxX s.
Proof.
  unfold processLines.
  induction ls as [| l ls IH]; intros s Hnone; cbn [fold_left];
    [split; reflexivity |].
  rewrite (observedX_cons l ls) in Hnone.
  apply app_eq_nil in Hnone. destruct Hnone as [Hl Hls].
  destruct (IH (step s l) Hls) as [-> ->].
  rewrite processLine_minX, processLine_maxX, Hl. split; reflexivity.
Qed.

(** The upper sentinel is positive: moves at or below it never replace it. *)
Lemma processLines_maxX_stuck ls : forall s,
  (forall x, In x (xs ls) -> x <= maxX s) ->
  maxX (steps s ls) = maxX s.
Proof.
  unfold processLines.
  induction ls as [| l ls IH]; intros s Hlow; cbn [fold_left];
    [reflexivity |].
  assert (Hstep : maxX (step s l) = maxX s).
  { rewrite processLine_maxX.
    destruct (xs [l]) as [| x rest] eqn:E; [reflexivity |].
    destruct (Number.lt (maxX s) x) eqn:Hlt; [| reflexivity].
    apply Number_lt_true in Hlt. exfalso.
    apply (Qlt_not_le _ _ Hlt). apply Hlow.
    rewrite (observedX_cons l ls), E. now left. }
  rewrite IH; [assumption |].
  intros x Hin. rewrite Hstep. apply Hlow.
  rewrite (observedX_cons l ls). apply in_or_app. now right.
Qed.

End BoundsFacts.

(** The X values 5, -3, 10 of the design document. *)
Example bounds_5_m3_10 :
  minX (Demo.run ["G1 X5"; "G1 X-3"; "G1 X10"]%string) = -3
  /\ maxX (Demo.run ["G1 X5"; "G1 X-3"; "G1 X10"]%string) = 10.
Proof. split; reflexivity. Qed.

(** No X move at all: both sentinels stay. *)
Example bounds_without_moves :
  minX (Demo.run ["T0"; "; a comment"]%string) = Number.MAX_VALUE
  /\ maxX (Demo.run ["T0"; "; a comment"]%string) = Number.MIN_VALUE.
Proof. split; reflexivity. Qed.

(** C2 at the input whose only X move is [G1 X-3] (the same happens for
    [G1 X0]): [minX] becomes -3, but the move does not replace the [maxX]
    sentinel, which stays at [Number.MIN_VALUE], a value that was never
    observed. *)
Theorem maxX_sentinel_not_replaced_by_first_move :
  Demo.observedX_of ["G1 X-3"%string] = [-3]
  /\ minX (Demo.run ["G1 X-3"%string]) = -3
  /\ maxX (Demo.run ["G1 X-3"%string]) = Number.MIN_VALUE
  /\ ~ In (maxX (Demo.run ["G1 X-3"%string]))
          (Demo.observedX_of ["G1 X-3"%string])
  /\ maxX (Demo.run ["G1 X0"%string]) = Number.MIN_VALUE.
Proof.
  repeat split. intros [H | []]. discriminate H.
Qed.

(* ================================================================== *)
(** * Finalization and bookmark resolution *)
(* ================================================================== *)

Section FinalizationFacts.

Context {MutableGCodeInfo CommonGCodeCommand : Type}.

Local Abbreviation State :=
  (State Bookmark.BookmarkKey MutableGCodeInfo CommonGCodeCommand).

Implicit Types s owner : State.
Implicit Types reg : Bookmark.Registry.
Implicit Types key : Bookmark.BookmarkKey.

(** No method of [State] tests or writes the flag. *)
Lemma invoke_always_returns (m : Mutator MutableGCodeInfo) s :
  exists s',
    invoke m s = Return s'
    /\ processingHasBeenFinalized s' = processingHasBeenFinalized s.
Proof.
  destruct m as [| value]; eexists; split; reflexivity.
Qed.

(** C3, as the code has it.  The flag is false on construction; the end of
    the pass turns it from false to true and refuses to run twice; no method
    of [State] changes it, so a finalized state stays finalized.  [State]
    itself does not guard its writes: its mutating methods complete normally
    on a finalized state.  Bookmark resolution on behalf of a finalized
    state fails with the "state already finalized" violation and returns no
    registry. *)
Theorem finalized_flag_is_kept_but_not_enforced s
    (Hfin : processingHasBeenFinalized s = true) :
  (forall idex quick allowUnsupported warn,
      processingHasBeenFinalized
        (new_State idex quick allowUnsupported warn : State) = false)
  /\ (forall s0,
         match Bookmark.finalizeProcessing s0 with
         | Return s1 =>
             processingHasBeenFinalized s0 = false
             /\ processingHasBeenFinalized s1 = true
         | Throw e =>
             processingHasBeenFinalized s0 = true
             /\ e = Bookmark.StateAlreadyFinalized
         end)
  /\ Bookmark.finalizeProcessing s = Throw Bookmark.StateAlreadyFinalized
  /\ (forall m, exists s',
         invoke m s = Return s' /\ processingHasBeenFinalized s' = true)
  /\ (forall reg key newText,
         Bookmark.resolve s reg key newText
         = Throw Bookmark.StateAlreadyFinalized).
Proof.
  split; [reflexivity |].
  split.
  { intros s0. unfold Bookmark.finalizeProcessing.
    destruct (processingHasBeenFinalized s0) eqn:E; split; reflexivity. }
  split.
  { unfold Bookmark.finalizeProcessing. now rewrite Hfin. }
  split.
  { intros m. destruct (invoke_always_returns m s) as (s' & Hs' & Hflag).
    exists s'. split; [assumption | congruence]. }
  intros reg key newText. unfold Bookmark.resolve. now rewrite Hfin.
Qed.

Lemma nth_error_replaceSlot (l : list Bookmark.Slot) : forall i x,
  (i < length l)%nat -> nth_error (Bookmark.replaceSlot l i x) i = Some x.
Proof.
  induction l as [| y l IH]; intros i x Hi; cbn [length] in Hi; [lia |].
  destruct i as [| j]; cbn [Bookmark.replaceSlot nth_error];
    [reflexivity |].
  apply IH. lia.
Qed.

(** A key just minted designates the line it was minted for, unconsumed. *)
Lemma createBookmark_slotOf reg lineText :
  let '(reg', bl) := Bookmark.createBookmark reg lineText in
  line bl = lineText
  /\ Bookmark.slotOf reg' (bookmark bl) = Some (Bookmark.mkSlot lineText false).
Proof.
  cbn. split; [reflexivity |].
  unfold Bookmark.slotOf. cbn. rewrite Nat.eqb_refl.
  rewrite nth_error_app2, Nat.sub_diag by lia. reflexivity.
Qed.

(** A key whose run or whose index is not of this registry has no slot. *)
Lemma foreign_key_has_no_slot reg key :
  Bookmark.keyRun key <> Bookmark.run reg
  \/ (length (Bookmark.slots reg) <= Bookmark.keyIndex key)%nat ->
  Bookmark.slotOf reg key = None.
Proof.
  unfold Bookmark.slotOf. intros [Hrun | Hidx].
  - apply Nat.eqb_neq in Hrun. now rewrite Hrun.
  - destruct (Nat.eqb _ _); [| reflexivity]. now apply nth_error_None.
Qed.

(** C9.  While the owning state is not finalized: the first resolution of an
    issued, unconsumed key succeeds and stores the new text; a second
    resolution of the same key fails with "bookmark already resolved" and,
    returning no registry, leaves the first text in place; a key that does
    not originate from this run fails with "bookmark unknown".  A resolution
    that succeeds was made for a state that is not finalized. *)
Theorem resolve_at_most_once owner reg key (text0 text1 text2 : string)
    (Hlive : processingHasBeenFinalized owner = false)
    (Hkey : Bookmark.slotOf reg key = Some (Bookmark.mkSlot text0 false)) :
  (exists reg1,
      Bookmark.resolve owner reg key text1 = Return reg1
      /\ Bookmark.textOf reg1 key = Some text1
      /\ Bookmark.resolve owner reg1 key text2
         = Throw Bookmark.BookmarkAlreadyResolved)
  /\ (forall key',
         Bookmark.keyRun key' <> Bookmark.run reg
         \/ (length (Bookmark.slots reg) <= Bookmark.keyIndex key')%nat ->
         Bookmark.resolve owner reg key' text1
         = Throw Bookmark.BookmarkUnknown)
  /\ (forall (owner' : State) reg' key' text reg'',
         Bookmark.resolve owner' reg' key' text = Return reg'' ->
         processingHasBeenFinalized owner' = false).
Proof.
  split; [| split].
  - unfold Bookmark.resolve at 1. rewrite Hlive, Hkey. cbn [Bookmark.slotConsumed].
    eexists. split; [reflexivity |].
    assert (Hslot :
      Bookmark.slotOf
        (Bookmark.mkRegistry (Bookmark.run reg)
           (Bookmark.replaceSlot (Bookmark.slots reg) (Bookmark.keyIndex key)
              (Bookmark.mkSlot text1 true))) key
      = Some (Bookmark.mkSlot text1 true)).
    { unfold Bookmark.slotOf in *. cbn [Bookmark.run Bookmark.slots].
      destruct (Nat.eqb (Bookmark.keyRun key) (Bookmark.run reg));
        [| discriminate].
      apply nth_error_replaceSlot. apply nth_error_Some. congruence. }
    split.
    + unfold Bookmark.textOf. now rewrite Hslot.
    + unfold Bookmark.resolve. now rewrite Hlive, Hslot.
  - intros key' Hforeign. unfold Bookmark.resolve.
    now rewrite Hlive, (foreign_key_has_no_slot reg key' Hforeign).
  - intros owner' reg' key' text reg'' Hok. unfold Bookmark.resolve in Hok.
    destruct (processingHasBeenFinalized owner'); [discriminate | reflexivity].
Qed.

End FinalizationFacts.

(** C3, as stated, fails on [State] itself: attaching the Info Aggregate to
    a finalized state completes normally and takes effect. *)
Lemma finalized_State_accepts_writes :
  let s : Demo.St := set_processingHasBeenFinalized true Demo.fresh in
  processingHasBeenFinalized s = true
  /\ invoke (CallSetGcodeInfo tt) s = Return (set_gcodeInfo tt s)
  /\ (forall e, invoke (CallSetGcodeInfo tt) s <> Throw e)
  /\ gcodeInfoOrUndefined s = None
  /\ gcodeInfoOrUndefined (set_gcodeInfo tt s) = Some tt.
Proof.
  cbv zeta. repeat split. intros e H. discriminate H.
Qed.

Lemma finalized_flag_is_kept_but_not_enforced_witness :
  let s : Demo.St := set_processingHasBeenFinalized true Demo.fresh in
  processingHasBeenFinalized s = true
  /\ Bookmark.finalizeProcessing s = Throw Bookmark.StateAlreadyFinalized
  /\ Bookmark.resolve s (Bookmark.newRegistry 7)
       (Bookmark.mkBookmarkKey 7 0) "G1 X5"
     = Throw Bookmark.StateAlreadyFinalized.
Proof.
  cbv zeta.
  pose proof (@finalized_flag_is_kept_but_not_enforced unit Demo.Command
                (set_processingHasBeenFinalized true Demo.fresh) eq_refl)
    as (_ & _ & H3 & _ & H5).
  split; [reflexivity |].
  split; [exact H3 |].
  apply H5.
Defined.

Lemma resolve_at_most_once_witness :
  let reg := fst (Bookmark.createBookmark (Bookmark.newRegistry 7) "G1 X5") in
  let key := Bookmark.mkBookmarkKey 7 0 in
  processingHasBeenFinalized Demo.fresh = false
  /\ Bookmark.slotOf reg key = Some (Bookmark.mkSlot "G1 X5" false)
  /\ exists reg1,
       Bookmark.resolve Demo.fresh reg key "G1 X6" = Return reg1
       /\ Bookmark.textOf reg1 key = Some "G1 X6"%string
       /\ Bookmark.resolve Demo.fresh reg1 key "G1 X7"
          = Throw Bookmark.BookmarkAlreadyResolved.
Proof.
  cbv zeta.
  split; [reflexivity |].
  split; [reflexivity |].
  exact (proj1
    (@resolve_at_most_once unit Demo.Command Demo.fresh
       (fst (Bookmark.createBookmark (Bookmark.newRegistry 7) "G1 X5"))
       (Bookmark.mkBookmarkKey 7 0) "G1 X5" "G1 X6" "G1 X7"
       eq_refl eq_refl)).
Defined.

(* ================================================================== *)
(** * The configuration section as a plain object *)
(* ================================================================== *)

Module JSFacts.

Import JS.

Lemma has_key_false k (l : list Entry) :
  has_key k l = false <-> ~ In k (map fst l).
Proof.
  unfold has_key. induction l as [| [k' v'] l IH]; cbn [existsb map fst In].
  - tauto.
  - rewrite orb_false_iff, IH. destruct (String.eqb_spec k' k) as [-> | Hne].
    + split; [intros [H _]; discriminate H | tauto].
    + tauto.
Qed.

(** On entries with pairwise distinct keys, [Object.fromEntries] creates one
    property per entry, in iteration order, and never overwrites. *)
Lemma fromEntries_fold (m : list Entry) : forall acc,
  NoDup (map fst (acc ++ m)) ->
  fold_left (fun o e => CreateDataProperty o (fst e) (snd e)) m
            (mkObject acc)
  = mkObject (acc ++ m).
Proof.
  induction m as [| [k v] m IH]; intros acc Hnd; cbn [fold_left].
  - now rewrite app_nil_r.
  - unfold CreateDataProperty at 2. cbn [props fst snd].
    assert (Hfresh : has_key k acc = false).
    { apply has_key_false. rewrite map_app in Hnd. cbn [map fst] in Hnd.
      apply NoDup_remove_2 in Hnd. intros Hin. apply Hnd.
      apply in_or_app. now left. }
    rewrite Hfresh, IH.
    + now rewrite <- app_assoc.
    + now rewrite <- app_assoc.
Qed.

Lemma fromEntries_props (m : Map) :
  Map_wf m -> props (Object_fromEntries (Map_entries m)) = m.
Proof.
  intros Hwf. unfold Object_fromEntries, Map_entries, emptyObject.
  now rewrite fromEntries_fold.
Qed.

Lemma insert_by_index_Permutation e (l : list Entry) :
  Permutation (insert_by_index e l) (e :: l).
Proof.
  induction l as [| e' l IH]; cbn [insert_by_index]; [reflexivity |].
  destruct (index_of (fst e) <=? index_of (fst e'))%N; [reflexivity |].
  rewrite IH. apply perm_swap.
Qed.

Lemma sort_by_index_Permutation (l : list Entry) :
  Permutation (sort_by_index l) l.
Proof.
  induction l as [| e l IH]; cbn [sort_by_index fold_right]; [reflexivity |].
  fold (sort_by_index l). rewrite insert_by_index_Permutation.
  now apply perm_skip.
Qed.

Lemma insert_by_index_HdRel a e (l : list Entry) :
  index_le a e -> HdRel index_le a l -> HdRel index_le a (insert_by_index e l).
Proof.
  intros Hae Hal. destruct l as [| e' l]; cbn [insert_by_index].
  - now constructor.
  - destruct (index_of (fst e) <=? index_of (fst e'))%N; constructor;
      [assumption | now inversion Hal].
Qed.

Lemma insert_by_index_Sorted e (l : list Entry) :
  Sorted index_le l -> Sorted index_le (insert_by_index e l).
Proof.
  induction l as [| e' l IH]; intros Hs; cbn [insert_by_index].
  - repeat constructor.
  - inversion Hs as [| ? ? Hs' Hhd]; subst.
    destruct (index_of (fst e) <=? index_of (fst e'))%N eqn:Hle.
    + constructor; [assumption |]. constructor. unfold index_le.
      now apply N.leb_le.
    + constructor; [now apply IH |].
      apply insert_by_index_HdRel; [| assumption].
      unfold index_le. apply N.leb_gt in Hle. lia.
Qed.

Lemma sort_by_index_Sorted (l : list Entry) :
  Sorted index_le (sort_by_index l).
Proof.
  induction l as [| e l IH]; cbn [sort_by_index fold_right];
    [constructor |].
  now apply insert_by_index_Sorted.
Qed.

Lemma sort_by_index_keyed (l : list Entry) :
  Forall (fun e => keyed_by_index e = true)
         (sort_by_index (filter keyed_by_index l)).
Proof.
  apply Forall_forall. intros e Hin.
  apply (Permutation_in _ (sort_by_index_Permutation _)) in Hin.
  now apply filter_In in Hin.
Qed.

Lemma filter_none (A : Type) (P : A -> bool) (l : list A) :
  Forall (fun x => P x = false) l -> filter P l = [].
Proof.
  induction 1 as [| x l Hx _ IH]; cbn [filter]; [reflexivity |].
  now rewrite Hx.
Qed.

Lemma filter_all (A : Type) (P : A -> bool) (l : list A) :
  Forall (fun x => P x = true) l -> filter P l = l.
Proof.
  induction 1 as [| x l Hx _ IH]; cbn [filter]; [reflexivity |].
  now rewrite Hx, IH.
Qed.

(** The enumeration of an object is a rearrangement of its properties. *)
Lemma Object_entries_In (o : Object) e :
  In e (Object_entries o) <-> In e (props o).
Proof.
  unfold Object_entries. rewrite in_app_iff.
  split.
  - intros [Hin | Hin].
    + apply (Permutation_in _ (sort_by_index_Permutation _)) in Hin.
      now apply filter_In in Hin.
    + now apply filter_In in Hin.
  - intros Hin. destruct (keyed_by_index e) eqn:Hk.
    + left. apply (Permutation_in _
                     (Permutation_sym (sort_by_index_Permutation _))).
      apply filter_In. now split.
    + right. apply filter_In. split; [assumption |].
      unfold keyed_by_name. unfold keyed_by_index in Hk. now rewrite Hk.
Qed.

(** Keys that are not array indices keep their creation order. *)
Lemma Object_entries_named (o : Object) :
  filter keyed_by_name (Object_entries o) = filter keyed_by_name (props o).
Proof.
  unfold Object_entries. rewrite filter_app.
  rewrite (@filter_none _ keyed_by_name
             (sort_by_index (filter keyed_by_index (props o)))).
  - cbn [app]. apply filter_all. apply Forall_forall. intros e Hin.
    now apply filter_In in Hin.
  - eapply Forall_impl; [| apply sort_by_index_keyed].
    intros e He. unfold keyed_by_name. unfold keyed_by_index in He.
    now rewrite He.
Qed.

(** Without array-index keys the enumeration is the creation order. *)
Lemma Object_entries_no_index (o : Object) :
  Forall (fun e => is_array_index (fst e) = false) (props o) ->
  Object_entries o = props o.
Proof.
  intros Hnone. unfold Object_entries.
  rewrite (@filter_none _ keyed_by_index (props o)) by exact Hnone.
  cbn [sort_by_index fold_right app]. apply filter_all.
  eapply Forall_impl; [| exact Hnone].
  intros e He. unfold keyed_by_name. now rewrite He.
Qed.

End JSFacts.

Section ConfigSectionFacts.

Context {BookmarkKey MutableGCodeInfo CommonGCodeCommand : Type}.

Local Abbreviation State := (State BookmarkKey MutableGCodeInfo CommonGCodeCommand).

Implicit Types s : State.

Lemma configSectionAsObject_None s :
  configSectionAsObject s = None <-> configSection s = None.
Proof.
  unfold configSectionAsObject.
  destruct (configSection s) as [m |]; cbn [option_map]; split;
    intros H; try discriminate H; reflexivity.
Qed.

(** C5, as the code has it.  [configSectionAsObject] is undefined exactly
    when [configSection] is undefined (an empty section gives an empty
    object, not undefined).  Otherwise it is a plain object with exactly the
    key/value pairs of the map.  Its enumeration lists the array-index keys
    first, in ascending numeric order, and then the remaining keys in
    insertion order; so insertion order is preserved among the keys that are
    not array indices, and for the whole section when no key is one. *)
Theorem configSectionAsObject_view s (m : JS.Map)
    (Hsome : configSection s = Some m) (Hwf : JS.Map_wf m) :
  (forall s0 : State,
      configSectionAsObject s0 = None <-> configSection s0 = None)
  /\ exists o,
       configSectionAsObject s = Some o
       /\ (forall k v, In (k, v) (JS.Object_entries o) <-> In (k, v) m)
       /\ (forall k, JS.Object_get o k = JS.Map_get m k)
       /\ (exists indexed,
              JS.Object_entries o = indexed ++ filter JS.keyed_by_name m
              /\ Forall (fun e => JS.keyed_by_index e = true) indexed
              /\ Sorted JS.index_le indexed)
       /\ filter JS.keyed_by_name (JS.Object_entries o)
          = filter JS.keyed_by_name m
       /\ (Forall (fun e => JS.is_array_index (fst e) = false) m ->
           JS.Object_entries o = m).
Proof.
  split; [apply configSectionAsObject_None |].
  unfold configSectionAsObject. rewrite Hsome. cbn [option_map].
  eexists. split; [reflexivity |].
  pose proof (JSFacts.fromEntries_props Hwf) as Hprops.
  split; [| split; [| split; [| split]]].
  - intros k v. rewrite JSFacts.Object_entries_In. now rewrite Hprops.
  - intros k. unfold JS.Object_get. now rewrite Hprops.
  - exists (JS.sort_by_index (filter JS.keyed_by_index m)).
    split; [| split].
    + unfold JS.Object_entries. now rewrite Hprops.
    + apply JSFacts.sort_by_index_keyed.
    + apply JSFacts.sort_by_index_Sorted.
  - rewrite JSFacts.Object_entries_named. now rewrite Hprops.
  - intros Hnone. rewrite JSFacts.Object_entries_no_index; now rewrite Hprops.
Qed.

End ConfigSectionFacts.

(** C5, as stated, fails when a key is an array index: the section with
    entries b = x, 1 = y (in this order) is seen as an object whose entries
    are 1 = y, b = x. *)
Lemma configSectionAsObject_reorders_index_keys :
  let m : JS.Map := [("b", "x"); ("1", "y")]%string in
  let s : Demo.St := set_configSection (Some m) Demo.fresh in
  JS.Map_wf m
  /\ exists o,
       configSectionAsObject s = Some o
       /\ JS.Object_entries o = [("1", "y"); ("b", "x")]%string
       /\ JS.Object_entries o <> JS.Map_entries m.
Proof.
  cbv zeta. split.
  - unfold JS.Map_wf. cbn. repeat constructor; cbn; intuition discriminate.
  - eexists. split; [reflexivity |]. split; [reflexivity |].
    vm_compute. discriminate.
Qed.

Lemma configSectionAsObject_view_witness :
  let m : JS.Map := [("max_x", "300"); ("bed", "60")]%string in
  let s : Demo.St := set_configSection (Some m) Demo.fresh in
  configSection s = Some m
  /\ JS.Map_wf m
  /\ exists o,
       configSectionAsObject s = Some o
       /\ (forall k v, In (k, v) (JS.Object_entries o) <-> In (k, v) m).
Proof.
  cbv zeta.
  assert (Hwf : JS.Map_wf [("max_x", "300"); ("bed", "60")]%string).
  { unfold JS.Map_wf. cbn. repeat constructor; cbn; intuition discriminate. }
  split; [reflexivity |].
  split; [exact Hwf |].
  destruct (@configSectionAsObject_view _ _ _
              (set_configSection
                 (Some [("max_x", "300"); ("bed", "60")]%string) Demo.fresh)
              _ eq_refl Hwf) as (_ & o & Ho & Hpairs & _).
  exists o. split; [exact Ho | exact Hpairs].
Defined.

(* ================================================================== *)
(** * Sequences of method calls on a State *)
(* ================================================================== *)

Section CallSequenceFacts.

Context {BookmarkKey MutableGCodeInfo CommonGCodeCommand : Type}.

Local Abbreviation State := (State BookmarkKey MutableGCodeInfo CommonGCodeCommand).

Implicit Types s : State.
Implicit Types ms : list (Mutator MutableGCodeInfo).

Lemma set__cmd_same s : set__cmd (_cmd s) s = s.
Proof. destruct s; reflexivity. Qed.

Lemma set_priv_gcodeInfo_same s : set_priv_gcodeInfo (priv_gcodeInfo s) s = s.
Proof. destruct s; reflexivity. Qed.

(** What a sequence of calls leaves behind: the state it started from, with
    the command slot cleared if the sequence resets, and with the last
    attached value if the sequence attaches. *)
Lemma invokeAll_normal_form ms : forall s,
  invokeAll ms s
  = Return (set_priv_gcodeInfo (lastAttached ms (priv_gcodeInfo s))
              (set__cmd (if callsReset ms then Undefined else _cmd s) s)).
Proof.
  induction ms as [| m ms IH]; intros s; cbn [invokeAll lastAttached].
  - unfold callsReset. cbn [existsb].
    now rewrite set__cmd_same, set_priv_gcodeInfo_same.
  - destruct m as [| value]; cbn [invoke]; rewrite IH;
      unfold callsReset; cbn [existsb orb].
    + destruct s; cbn. destruct (existsb _ ms); reflexivity.
    + destruct s; cbn. destruct (existsb _ ms); reflexivity.
Qed.

(** X1.  Once an Info Aggregate is attached it stays attached: whatever
    sequence of [resetIterationState] and [gcodeInfo] setter calls follows,
    every call completes normally and the getter [gcodeInfo] then returns a
    value, namely the argument of the last setter call (the value attached
    before, when the sequence has no setter call); it never throws again. *)
Theorem gcodeInfo_stays_attached ms s (g : MutableGCodeInfo)
    (Hattached : gcodeInfoOrUndefined s = Some g) :
  exists s' g',
    invokeAll ms s = Return s'
    /\ lastAttached ms (Some g) = Some g'
    /\ gcodeInfo s' = Return g'
    /\ gcodeInfoOrUndefined s' = Some g'.
Proof.
  unfold gcodeInfoOrUndefined in Hattached.
  assert (Hlast : exists g', lastAttached ms (Some g) = Some g').
  { clear. revert g. induction ms as [| m ms IH]; intros g.
    - now exists g.
    - destruct m as [| value]; cbn [lastAttached]; apply IH. }
  destruct Hlast as [g' Hg'].
  eexists. exists g'. rewrite invokeAll_normal_form, Hattached, Hg'.
  repeat split.
Qed.

(** X2.  The methods of [State] write two places only.  After any sequence
    of calls the run configuration and every stream-scope field are those of
    the starting state, and so is the view [configSectionAsObject]; the
    command slot is undefined if the sequence reset it and untouched
    otherwise; the private Info Aggregate is the last one attached. *)
Theorem invokeAll_frame ms s :
  exists s',
    invokeAll ms s = Return s'
    /\ (kPrinterHasIdex s' = kPrinterHasIdex s
        /\ kQuickInpsectionOnly s' = kQuickInpsectionOnly s
        /\ kAllowUnsupportedSlicerVersions s'
           = kAllowUnsupportedSlicerVersions s
        /\ onWarning s' = onWarning s)
    /\ (currentLineNumber s' = currentLineNumber s
        /\ firstLine s' = firstLine s
        /\ startPrintLine s' = startPrintLine s
        /\ onLayerChange2Line s' = onLayerChange2Line s
        /\ extruderTempLines s' = extruderTempLines s
        /\ extruderTemps s' = extruderTemps s
        /\ toolChangeCount s' = toolChangeCount s
        /\ firstMoveX s' = firstMoveX s
        /\ firstMoveY s' = firstMoveY s
        /\ minX s' = minX s
        /\ maxX s' = maxX s
        /\ hasPurgeTower s' = hasPurgeTower s
        /\ configSection s' = configSection s
        /\ processingHasBeenFinalized s' = processingHasBeenFinalized s
        /\ usedTools s' = usedTools s)
    /\ configSectionAsObject s' = configSectionAsObject s
    /\ _cmd s' = (if callsReset ms then Undefined else _cmd s)
    /\ gcodeInfoOrUndefined s' = lastAttached ms (gcodeInfoOrUndefined s).
Proof.
  eexists. rewrite invokeAll_normal_form. repeat split.
Qed.

(** X3.  The two getters of the Info Aggregate never disagree: [gcodeInfo]
    returns [g] exactly when [gcodeInfoOrUndefined] is [g], and it throws,
    always the same internal error, exactly when [gcodeInfoOrUndefined] is
    undefined. *)
Theorem gcodeInfo_getters_agree s :
  (forall g, gcodeInfo s = Return g <-> gcodeInfoOrUndefined s = Some g)
  /\ (forall e, gcodeInfo s = Throw e <->
                gcodeInfoOrUndefined s = None
                /\ e = InternalError "gcodeInfo has not been set yet.").
Proof.
  unfold gcodeInfo, gcodeInfoOrUndefined.
  destruct (priv_gcodeInfo s) as [g0 |]; split.
  - intros g. split; intros H; inversion H; reflexivity.
  - intros e. split; [intros H; discriminate H | intros [H _]; discriminate H].
  - intros g. split; intros H; discriminate H.
  - intros e. split.
    + intros H. inversion H. split; reflexivity.
    + intros [_ ->]. reflexivity.
Qed.

End CallSequenceFacts.

Lemma gcodeInfo_stays_attached_witness :
  let s : Demo.St := set_gcodeInfo tt Demo.fresh in
  gcodeInfoOrUndefined s = Some tt
  /\ exists s' g',
       invokeAll [CallResetIterationState; CallSetGcodeInfo tt;
                  CallResetIterationState] s = Return s'
       /\ gcodeInfo s' = Return g'.
Proof.
  cbv zeta. split; [reflexivity |].
  destruct (@gcodeInfo_stays_attached _ _ _
              [CallResetIterationState; CallSetGcodeInfo tt;
               CallResetIterationState]
              (set_gcodeInfo tt Demo.fresh : Demo.St) tt eq_refl)
    as (s' & g' & Hrun & _ & Hget & _).
  exists s', g'. split; [exact Hrun | exact Hget].
Defined.

(* ================================================================== *)
(** * More on the configuration section as a plain object *)
(* ================================================================== *)

Lemma filter_partition_Permutation (A : Type) (P : A -> bool) (l : list A) :
  Permutation (filter P l ++ filter (fun x => negb (P x)) l) l.
Proof.
  induction l as [| x l IH]; cbn [filter]; [reflexivity |].
  destruct (P x); cbn [negb app].
  - now apply perm_skip.
  - rewrite <- Permutation_middle. now apply perm_skip.
Qed.

Lemma Object_entries_Permutation (o : JS.Object) :
  Permutation (JS.Object_entries o) (JS.props o).
Proof.
  unfold JS.Object_entries.
  rewrite JSFacts.sort_by_index_Permutation.
  apply (filter_partition_Permutation JS.keyed_by_index).
Qed.

(** A key that does not start with a decimal digit is not an array index. *)
Lemma array_index_needs_digit (c : ascii) (rest : string) :
  JS.is_digit c = false -> JS.is_array_index (String c rest) = false.
Proof.
  intros Hc. unfold JS.is_array_index, JS.array_index.
  destruct (Ascii.eqb_spec c "0"%char) as [-> | _]; [discriminate Hc |].
  cbn [JS.decimal_value]. now rewrite Hc.
Qed.

Section ConfigSectionMoreFacts.

Context {BookmarkKey MutableGCodeInfo CommonGCodeCommand : Type}.

Local Abbreviation State := (State BookmarkKey MutableGCodeInfo CommonGCodeCommand).

Implicit Types s : State.

(** X4.  The object view of a configuration section neither loses nor
    duplicates an entry: its entries are a rearrangement of the entries of
    the map, so it has as many keys as the map has entries and no key
    twice. *)
Theorem configSectionAsObject_is_rearrangement s (m : JS.Map)
    (Hsome : configSection s = Some m) (Hwf : JS.Map_wf m) :
  exists o,
    configSectionAsObject s = Some o
    /\ Permutation (JS.Object_entries o) (JS.Map_entries m)
    /\ NoDup (JS.Object_keys o)
    /\ length (JS.Object_keys o) = length m.
Proof.
  unfold configSectionAsObject. rewrite Hsome. cbn [option_map].
  eexists. split; [reflexivity |].
  pose proof (Object_entries_Permutation
                (JS.Object_fromEntries (JS.Map_entries m))) as Hperm.
  rewrite (JSFacts.fromEntries_props Hwf) in Hperm.
  split; [exact Hperm |]. unfold JS.Object_keys. split.
  - eapply Permutation_NoDup; [| exact Hwf].
    apply Permutation_sym. now apply Permutation_map.
  - rewrite length_map. now apply Permutation_length.
Qed.

(** X5.  When every key of the configuration section starts with a
    character that is not a decimal digit (a letter, an underscore, ...),
    or is empty, the object view lists the entries in the insertion order of
    the map. *)
Theorem configSectionAsObject_keeps_order_of_named_keys s (m : JS.Map)
    (Hsome : configSection s = Some m) (Hwf : JS.Map_wf m)
    (Hnamed : Forall (fun e => match fst e with
                               | EmptyString => True
                               | String c _ => JS.is_digit c = false
                               end) m) :
  exists o,
    configSectionAsObject s = Some o
    /\ JS.Object_entries o = JS.Map_entries m
    /\ JS.Object_keys o = map fst m.
Proof.
  unfold configSectionAsObject. rewrite Hsome. cbn [option_map].
  eexists. split; [reflexivity |].
  assert (Hentries :
    JS.Object_entries (JS.Object_fromEntries (JS.Map_entries m)) = m).
  { rewrite JSFacts.Object_entries_no_index;
      rewrite (JSFacts.fromEntries_props Hwf); [reflexivity |].
    eapply Forall_impl; [| exact Hnamed].
    intros [k v]. cbn [fst]. destruct k as [| c rest]; [reflexivity |].
    apply array_index_needs_digit. }
  split; [exact Hentries |]. unfold JS.Object_keys. now rewrite Hentries.
Qed.

End ConfigSectionMoreFacts.

Lemma configSectionAsObject_is_rearrangement_witness :
  let m : JS.Map := [("b", "x"); ("10", "y"); ("9", "z")]%string in
  let s : Demo.St := set_configSection (Some m) Demo.fresh in
  configSection s = Some m
  /\ JS.Map_wf m
  /\ exists o,
       configSectionAsObject s = Some o
       /\ Permutation (JS.Object_entries o) (JS.Map_entries m).
Proof.
  cbv zeta.
  assert (Hwf : JS.Map_wf [("b", "x"); ("10", "y"); ("9", "z")]%string).
  { unfold JS.Map_wf. cbn. repeat constructor; cbn; intuition discriminate. }
  split; [reflexivity |].
  split; [exact Hwf |].
  destruct (@configSectionAsObject_is_rearrangement _ _ _
              (set_configSection
                 (Some [("b", "x"); ("10", "y"); ("9", "z")]%string)
                 Demo.fresh) _ eq_refl Hwf) as (o & Ho & Hperm & _).
  exists o. split; [exact Ho | exact Hperm].
Defined.

Lemma configSectionAsObject_keeps_order_of_named_keys_witness :
  let m : JS.Map := [("max_x", "300"); ("bed", "60"); ("_t0", "1")]%string in
  let s : Demo.St := set_configSection (Some m) Demo.fresh in
  configSection s = Some m
  /\ JS.Map_wf m
  /\ exists o,
       configSectionAsObject s = Some o
       /\ JS.Object_entries o = JS.Map_entries m.
Proof.
  cbv zeta.
  assert (Hwf : JS.Map_wf
                  [("max_x", "300"); ("bed", "60"); ("_t0", "1")]%string).
  { unfold JS.Map_wf. cbn. repeat constructor; cbn; intuition discriminate. }
  split; [reflexivity |].
  split; [exact Hwf |].
  destruct (@configSectionAsObject_keeps_order_of_named_keys _ _ _
              (set_configSection
                 (Some [("max_x", "300"); ("bed", "60"); ("_t0", "1")]%string)
                 Demo.fresh) _ eq_refl Hwf) as (o & Ho & Hentries & _).
  { repeat constructor. }
  exists o. split; [exact Ho | exact Hentries].
Defined.

(* ================================================================== *)
(** * The state updaters of the file-changes list *)
(* ================================================================== *)

Module FileChangesFacts.

Import FileChanges.

Lemma includes_In (files : list string) name :
  includes files name = true <-> In name files.
Proof. apply existsb_eqb_In. Qed.

Lemma includes_not_In (files : list string) name :
  includes files name = false <-> ~ In name files.
Proof.
  rewrite <- includes_In. destruct (includes files name); split.
  - intros H. discriminate H.
  - intros H. exfalso. now apply H.
  - intros _ H. discriminate H.
  - reflexivity.
Qed.

Lemma filter_other_names (files : list string) name :
  ~ In name files ->
  filter (fun file => negb (String.eqb file name)) files = files.
Proof.
  induction files as [| f files IH]; intros Hnot; cbn [filter];
    [reflexivity |].
  destruct (String.eqb_spec f name) as [-> | _]; cbn [negb].
  - exfalso. apply Hnot. now left.
  - rewrite IH; [reflexivity |]. intros Hin. apply Hnot. now right.
Qed.

Lemma removeFile_filter name (files : list string) :
  removeFile name files
  = filter (fun file => negb (String.eqb file name)) files.
Proof.
  unfold removeFile. destruct (includes files name) eqn:E; [reflexivity |].
  symmetry. apply filter_other_names. now apply includes_not_In.
Qed.

Lemma In_removeFile name (files : list string) g :
  In g (removeFile name files) <-> In g files /\ g <> name.
Proof.
  rewrite removeFile_filter, filter_In.
  destruct (String.eqb_spec g name) as [-> | Hne]; cbn [negb].
  - split; [intros [_ H]; discriminate H | intros [_ H]; now elim H].
  - tauto.
Qed.

Lemma In_addFile name (files : list string) g :
  In g (addFile name files) <-> In g files \/ g = name.
Proof.
  unfold addFile. destruct (includes files name) eqn:E.
  - apply includes_In in E. split; [tauto | intros [H | ->]; assumption].
  - rewrite in_app_iff. cbn [In].
    split; [intros [H | [<- | []]]; auto | intros [H | ->]; auto].
Qed.

Lemma includes_addFile_same name files :
  includes (addFile name files) name = true.
Proof. apply includes_In, In_addFile. now right. Qed.

Lemma includes_removeFile_same name files :
  includes (removeFile name files) name = false.
Proof. apply includes_not_In. rewrite In_removeFile. tauto. Qed.

Lemma includes_iff (l1 l2 : list string) g :
  (In g l1 <-> In g l2) -> includes l1 g = includes l2 g.
Proof.
  intros H. destruct (includes l2 g) eqn:E.
  - apply includes_In, H, includes_In, E.
  - apply includes_not_In. rewrite H. now apply includes_not_In.
Qed.

Lemma includes_addFile_other name files g :
  g <> name -> includes (addFile name files) g = includes files g.
Proof. intros Hne. apply includes_iff. rewrite In_addFile. tauto. Qed.

Lemma includes_removeFile_other name files g :
  g <> name -> includes (removeFile name files) g = includes files g.
Proof. intros Hne. apply includes_iff. rewrite In_removeFile. tauto. Qed.

Lemma removeFile_addFile name (files : list string) :
  includes files name = false -> removeFile name (addFile name files) = files.
Proof.
  intros Hnot. rewrite removeFile_filter. unfold addFile. rewrite Hnot.
  rewrite filter_app. cbn [filter]. rewrite String.eqb_refl. cbn [negb].
  rewrite app_nil_r. apply filter_other_names. now apply includes_not_In.
Qed.

(** X6.  Removing a file name from a list of marks drops every occurrence
    of that name and nothing else: the result is the list filtered on the
    name, whether or not the name was there, so the name is no longer
    marked and the other names keep their marks and their order. *)
Theorem removeFile_drops_exactly_the_name name (files : list string) :
  removeFile name files
  = filter (fun file => negb (String.eqb file name)) files
  /\ includes (removeFile name files) name = false
  /\ (forall g, In g (removeFile name files) <-> In g files /\ g <> name)
  /\ removeFile name (removeFile name files) = removeFile name files.
Proof.
  split; [apply removeFile_filter |].
  split; [apply includes_removeFile_same |].
  split; [intros g; apply In_removeFile |].
  unfold removeFile at 1. now rewrite includes_removeFile_same.
Qed.

(** X7.  Adding a file name to a list of marks appends it at the end unless
    it is already there: a list that holds the name is returned as it is,
    and a list that does not hold it gets the name appended once.
    Afterwards the name is marked, the names marked before stay where they
    were, no other name becomes marked, and adding the same name again
    changes nothing. *)
Theorem addFile_marks_once name (files : list string) :
  includes (addFile name files) name = true
  /\ (exists more, addFile name files = files ++ more)
  /\ (forall g, In g (addFile name files) <-> In g files \/ g = name)
  /\ addFile name (addFile name files) = addFile name files
  /\ (In name files -> addFile name files = files)
  /\ (~ In name files -> addFile name files = files ++ [name])
  /\ count_occ string_dec (addFile name files) name
     = Nat.max 1 (count_occ string_dec files name).
Proof.
  split; [apply includes_addFile_same |].
  split.
  { unfold addFile. destruct (includes files name);
      [exists []; now rewrite app_nil_r | now exists [name]]. }
  split; [intros g; apply In_addFile |].
  split.
  { unfold addFile at 1. now rewrite includes_addFile_same. }
  split.
  { intros Hin. apply includes_In in Hin. unfold addFile. now rewrite Hin. }
  split.
  { intros Hnot. apply includes_not_In in Hnot. unfold addFile.
    now rewrite Hnot. }
  unfold addFile. destruct (includes files name) eqn:E.
  - apply includes_In in E.
    apply (count_occ_In string_dec) in E. lia.
  - apply includes_not_In in E. rewrite count_occ_app.
    apply (count_occ_not_In string_dec) in E. rewrite E. cbn.
    destruct (string_dec name name) as [_ | Hne]; [reflexivity | now elim Hne].
Qed.

Lemma NoDup_addFile name (files : list string) :
  NoDup files -> NoDup (addFile name files).
Proof.
  intros Hnd. unfold addFile. destruct (includes files name) eqn:E;
    [assumption |].
  apply includes_not_In in E.
  apply (Permutation_NoDup (l := name :: files)).
  - apply Permutation_cons_append.
  - now constructor.
Qed.

Lemma NoDup_removeFile name (files : list string) :
  NoDup files -> NoDup (removeFile name files).
Proof. intros Hnd. rewrite removeFile_filter. now apply NoDup_filter. Qed.

(** X8.  The two lists of marks never hold a name twice: they are empty at
    first, and each of the four updaters keeps both lists free of
    duplicates. *)
Theorem marks_stay_duplicate_free (m : Marks) name
    (Hover : NoDup (filesToOverwrite m)) (Hign : NoDup (filesToIgnore m)) :
  (NoDup (filesToOverwrite initialMarks) /\ NoDup (filesToIgnore initialMarks))
  /\ (NoDup (filesToOverwrite (addFileToOverwrite name m))
      /\ NoDup (filesToIgnore (addFileToOverwrite name m)))
  /\ (NoDup (filesToOverwrite (removeFileToOverwrite name m))
      /\ NoDup (filesToIgnore (removeFileToOverwrite name m)))
  /\ (NoDup (filesToOverwrite (addFileToIgnore name m))
      /\ NoDup (filesToIgnore (addFileToIgnore name m)))
  /\ (NoDup (filesToOverwrite (removeFileToIgnore name m))
      /\ NoDup (filesToIgnore (removeFileToIgnore name m))).
Proof.
  cbn [initialMarks addFileToOverwrite removeFileToOverwrite addFileToIgnore
       removeFileToIgnore filesToOverwrite filesToIgnore].
  repeat split; try assumption; try constructor;
    solve [now apply NoDup_addFile | now apply NoDup_removeFile].
Qed.

(** X9.  Marking a file that was not marked and then unmarking it gives back
    the list of marks as it was; for the two lists of [FileChanges]: adding
    a name to a list and removing it again restores the marks. *)
Theorem unmark_undoes_mark (m : Marks) name
    (Hover : includes (filesToOverwrite m) name = false)
    (Hign : includes (filesToIgnore m) name = false) :
  removeFileToOverwrite name (addFileToOverwrite name m) = m
  /\ removeFileToIgnore name (addFileToIgnore name m) = m.
Proof.
  destruct m as [over ign]. cbn in *.
  unfold removeFileToOverwrite, addFileToOverwrite, removeFileToIgnore,
    addFileToIgnore. cbn.
  now rewrite !removeFile_addFile.
Qed.

End FileChangesFacts.

Lemma marks_stay_duplicate_free_witness :
  let m := FileChanges.mkMarks ["printer.cfg"; "macros.cfg"]%string
                               ["shell.cfg"]%string in
  NoDup (FileChanges.filesToOverwrite m)
  /\ NoDup (FileChanges.filesToIgnore m)
  /\ NoDup (FileChanges.filesToOverwrite
              (FileChanges.addFileToOverwrite "printer.cfg" m))
  /\ NoDup (FileChanges.filesToIgnore
              (FileChanges.removeFileToIgnore "shell.cfg" m)).
Proof.
  cbv zeta.
  assert (H1 : NoDup ["printer.cfg"; "macros.cfg"]%string).
  { repeat constructor; cbn; intuition discriminate. }
  assert (H2 : NoDup ["shell.cfg"]%string).
  { repeat constructor; cbn; intuition. }
  split; [exact H1 |]. split; [exact H2 |].
  destruct (@FileChangesFacts.marks_stay_duplicate_free
              (FileChanges.mkMarks ["printer.cfg"; "macros.cfg"]%string
                                   ["shell.cfg"]%string)
              "printer.cfg" H1 H2) as (_ & [Ha _] & _).
  destruct (@FileChangesFacts.marks_stay_duplicate_free
              (FileChanges.mkMarks ["printer.cfg"; "macros.cfg"]%string
                                   ["shell.cfg"]%string)
              "shell.cfg" H1 H2) as (_ & _ & _ & _ & [_ Hb]).
  split; [exact Ha | exact Hb].
Defined.

Lemma unmark_undoes_mark_witness :
  let m := FileChanges.mkMarks ["printer.cfg"]%string ["shell.cfg"]%string in
  FileChanges.includes (FileChanges.filesToOverwrite m) "macros.cfg" = false
  /\ FileChanges.includes (FileChanges.filesToIgnore m) "macros.cfg" = false
  /\ FileChanges.removeFileToIgnore "macros.cfg"
       (FileChanges.addFileToIgnore "macros.cfg" m) = m.
Proof.
  cbv zeta. split; [reflexivity |]. split; [reflexivity |].
  exact (proj2 (@FileChangesFacts.unmark_undoes_mark
                  (FileChanges.mkMarks ["printer.cfg"]%string
                                       ["shell.cfg"]%string)
                  "macros.cfg" eq_refl eq_refl)).
Defined.

(* ================================================================== *)
(** * The rows of the file-changes list *)
(* ================================================================== *)

Module ChangedFileFacts.

Import FileChanges.
Import FileChangesFacts.

Ltac split_file file :=
  destruct file as [name st ov ex cfc cod];
  cbn [fileName state overwrite file_exists changedFromConfig changedOnDisk]
    in *.

Ltac split_flags :=
  repeat match goal with
         | b : bool |- _ => destruct b
         | o : option bool |- _ => destruct o
         | st : FileState |- _ => destruct st
         end.

(** A flag field that is only read through [truthy] is replaced by its
    truthiness. *)
Ltac forget_truthy o :=
  let t := fresh "t" in
  set (t := truthy o) in *; clearbody t; try clear o.

Lemma needsExplicitAction_true file mo mi :
  needsExplicitAction file mo mi = true
  <-> state file = changed
      /\ truthy (overwrite file) = false
      /\ mo = false /\ mi = false
      /\ changedFromConfig file = Some true.
Proof.
  split_file file. unfold needsExplicitAction, isIgnorable, isIgnored,
    isOverwritten, wouldOtherwiseBeWritten, changedFromConfig_is_true.
  cbn [fileName state overwrite file_exists changedFromConfig].
  split_flags; cbn; split; try discriminate; try (repeat split; reflexivity);
    intros (H1 & H2 & H3 & H4 & H5); discriminate.
Qed.

Lemma needsExplicitAction_ignored file mo :
  needsExplicitAction file mo true = false.
Proof.
  destruct (needsExplicitAction file mo true) eqn:E; [| reflexivity].
  apply needsExplicitAction_true in E. destruct E as (_ & _ & _ & H & _).
  discriminate H.
Qed.

Lemma needsExplicitAction_marked file mi :
  needsExplicitAction file true mi = false.
Proof.
  destruct (needsExplicitAction file true mi) eqn:E; [| reflexivity].
  apply needsExplicitAction_true in E. destruct E as (_ & _ & H & _).
  discriminate H.
Qed.

(** X10.  A row asks for an explicit decision in exactly one situation: the
    file is in state "changed", it is not flagged for overwriting by the
    server, the user has neither accepted nor ignored it, and it differs
    from the generated configuration.  Files that are created, removed or
    unchanged never ask. *)
Theorem needsExplicitAction_only_for_undecided_changes file mo mi :
  needsExplicitAction file mo mi = true
  <-> state file = changed
      /\ truthy (overwrite file) = false
      /\ mo = false /\ mi = false
      /\ changedFromConfig file = Some true.
Proof. apply needsExplicitAction_true. Qed.

(** Every action of a row carries one of the five callbacks, and is only
    offered when its callback has something to do. *)
Lemma actions_cases file mo mi a :
  In a (actions file mo mi) ->
  (action a = removeFileToOverwrite /\ mo = true)
  \/ (action a = addFileToIgnore /\ mi = false)
  \/ (action a = addFileToOverwrite /\ mo = false /\ mi = false)
  \/ (action a = (fun f m => addFileToOverwrite f (removeFileToIgnore f m))
      /\ mi = true)
  \/ (action a = removeFileToIgnore /\ mi = true).
Proof.
  split_file file. unfold actions. cbn [fileName].
  destruct (String.eqb name "RatOS.cfg"); [contradiction |].
  unfold present, skip, ignore, overwriteAction, write, remove,
    needsExplicitAction, isIgnorable, isIgnored, isOverwritable,
    isOverwritten, wouldOtherwiseBeWritten, changedFromConfig_is_true.
  cbn [fileName state overwrite file_exists changedFromConfig].
  forget_truthy ov. forget_truthy ex. clear cod.
  destruct (String.eqb name "printer.cfg");
    split_flags; cbn; intros H;
    repeat (destruct H as [<- | H]); try contradiction; cbn [action];
    auto 12.
Qed.

(** X11.  A row offers at most two actions, their titles (which serve as
    React keys) are pairwise different, and the row of [RatOS.cfg] offers
    none. *)
Theorem actions_are_few_and_distinct file mo mi :
  (length (actions file mo mi) <= 2)%nat
  /\ NoDup (map title (actions file mo mi))
  /\ (String.eqb (fileName file) "RatOS.cfg" = true ->
      actions file mo mi = []).
Proof.
  split_file file. unfold actions. cbn [fileName].
  destruct (String.eqb name "RatOS.cfg").
  { repeat split; [cbn; lia | constructor]. }
  unfold present, skip, ignore, overwriteAction, write, remove,
    needsExplicitAction, isIgnorable, isIgnored, isOverwritable,
    isOverwritten, wouldOtherwiseBeWritten, changedFromConfig_is_true.
  cbn [fileName state overwrite file_exists changedFromConfig].
  forget_truthy ov. forget_truthy ex. clear cod.
  destruct (String.eqb name "printer.cfg");
    split_flags; cbn; (split; [lia |]); (split; [| discriminate]);
    repeat constructor; cbn; intuition discriminate.
Qed.

Lemma marked_after (m : Marks) file (a : Action) :
  (action a = removeFileToOverwrite ->
   isMarkedOverwrittenIn (click a file m) file = false
   /\ isMarkedIgnoredIn (click a file m) file = isMarkedIgnoredIn m file)
  /\ (action a = addFileToIgnore ->
      isMarkedIgnoredIn (click a file m) file = true
      /\ isMarkedOverwrittenIn (click a file m) file
         = isMarkedOverwrittenIn m file)
  /\ (action a = addFileToOverwrite ->
      isMarkedOverwrittenIn (click a file m) file = true
      /\ isMarkedIgnoredIn (click a file m) file = isMarkedIgnoredIn m file)
  /\ (action a = (fun f m => addFileToOverwrite f (removeFileToIgnore f m)) ->
      isMarkedOverwrittenIn (click a file m) file = true
      /\ isMarkedIgnoredIn (click a file m) file = false)
  /\ (action a = removeFileToIgnore ->
      isMarkedIgnoredIn (click a file m) file = false
      /\ isMarkedOverwrittenIn (click a file m) file
         = isMarkedOverwrittenIn m file).
Proof.
  unfold click, isMarkedOverwrittenIn, isMarkedIgnoredIn.
  repeat match goal with |- _ /\ _ => split end; intros ->;
    cbn [addFileToOverwrite removeFileToOverwrite addFileToIgnore
         removeFileToIgnore filesToOverwrite filesToIgnore];
    split; auto using includes_addFile_same, includes_removeFile_same.
Qed.

(** X12.  No button is dead: clicking any action a row offers changes
    whether that row's file is marked for overwriting or whether it is
    marked as ignored. *)
Theorem no_action_is_a_no_op (m : Marks) file (a : Action)
    (Hoffered : In a (actionsIn m file)) :
  isMarkedOverwrittenIn (click a file m) file <> isMarkedOverwrittenIn m file
  \/ isMarkedIgnoredIn (click a file m) file <> isMarkedIgnoredIn m file.
Proof.
  unfold actionsIn in Hoffered. apply actions_cases in Hoffered.
  destruct (marked_after m file a) as (H1 & H2 & H3 & H4 & H5).
  destruct Hoffered
    as [[Ha Hm] | [[Ha Hm] | [(Ha & Hm & Hm') | [[Ha Hm] | [Ha Hm]]]]].
  - left. rewrite (proj1 (H1 Ha)), Hm. discriminate.
  - right. rewrite (proj1 (H2 Ha)), Hm. discriminate.
  - left. rewrite (proj1 (H3 Ha)), Hm. discriminate.
  - right. rewrite (proj2 (H4 Ha)), Hm. discriminate.
  - right. rewrite (proj1 (H5 Ha)), Hm. discriminate.
Qed.

(** X13.  The actions of a row act on that row only: clicking one leaves
    the marks of every file with another name as they were. *)
Theorem actions_touch_only_their_file (m : Marks) file other (a : Action)
    (Hoffered : In a (actionsIn m file))
    (Hother : fileName other <> fileName file) :
  isMarkedOverwrittenIn (click a file m) other = isMarkedOverwrittenIn m other
  /\ isMarkedIgnoredIn (click a file m) other = isMarkedIgnoredIn m other.
Proof.
  unfold actionsIn in Hoffered. apply actions_cases in Hoffered.
  unfold click, isMarkedOverwrittenIn, isMarkedIgnoredIn.
  destruct Hoffered
    as [[-> _] | [[-> _] | [(-> & _) | [[-> _] | [-> _]]]]];
    cbn [addFileToOverwrite removeFileToOverwrite addFileToIgnore
         removeFileToIgnore filesToOverwrite filesToIgnore];
    split;
    rewrite ?includes_addFile_other, ?includes_removeFile_other
      by assumption; reflexivity.
Qed.

(** X14.  A row that asks for an explicit decision (other than the row of
    [RatOS.cfg]) offers exactly "Keep existing file" and "Accept changes",
    in this order, the first highlighted as danger (info for
    [printer.cfg]); whichever of the two is clicked, the row no longer asks
    for a decision. *)
Theorem explicit_action_is_resolved_by_either_action (m : Marks) file
    (Hneeds : needsExplicitActionIn m file = true)
    (Hname : fileName file <> "RatOS.cfg"%string) :
  actionsIn m file
  = [ mkAction addFileToIgnore
        (if String.eqb (fileName file) "printer.cfg" then info else danger)
        "Keep existing file" FileClock;
      mkAction addFileToOverwrite warning "Accept changes" Check ]
  /\ (forall a, In a (actionsIn m file) ->
                needsExplicitActionIn (click a file m) file = false).
Proof.
  assert (Hlist :
    actionsIn m file
    = [ mkAction addFileToIgnore
          (if String.eqb (fileName file) "printer.cfg" then info else danger)
          "Keep existing file" FileClock;
        mkAction addFileToOverwrite warning "Accept changes" Check ]).
  { unfold needsExplicitActionIn in Hneeds. unfold actionsIn.
    apply needsExplicitAction_true in Hneeds.
    destruct Hneeds as (Hst & Hov & -> & -> & Hcfc).
    apply String.eqb_neq in Hname.
    split_file file. subst st cfc. unfold actions. cbn [fileName].
    rewrite Hname.
    unfold present, skip, ignore, overwriteAction, write, remove,
      needsExplicitAction, isIgnorable, isIgnored, isOverwritable,
      isOverwritten, wouldOtherwiseBeWritten, changedFromConfig_is_true.
    cbn [fileName state overwrite file_exists changedFromConfig].
    rewrite Hov. cbn. reflexivity. }
  split; [exact Hlist |].
  intros a Ha. rewrite Hlist in Ha. unfold needsExplicitActionIn.
  destruct (marked_after m file a) as (_ & H2 & H3 & _).
  destruct Ha as [<- | [<- | []]].
  - rewrite (proj1 (H2 eq_refl)). apply needsExplicitAction_ignored.
  - rewrite (proj1 (H3 eq_refl)). apply needsExplicitAction_marked.
Qed.

End ChangedFileFacts.

Module ChangedFileMoreFacts.

Import FileChanges.
Import FileChangesFacts.
Import ChangedFileFacts.

Lemma actionsIn_after_addFileToIgnore (m : Marks) file :
  actionsIn (addFileToIgnore (fileName file) m) file
  = actions file (isMarkedOverwrittenIn m file) true.
Proof.
  unfold actionsIn, isMarkedOverwrittenIn, isMarkedIgnoredIn.
  cbn [addFileToIgnore filesToOverwrite filesToIgnore].
  now rewrite includes_addFile_same.
Qed.

Lemma actionsIn_after_addFileToOverwrite (m : Marks) file :
  actionsIn (addFileToOverwrite (fileName file) m) file
  = actions file true (isMarkedIgnoredIn m file).
Proof.
  unfold actionsIn, isMarkedOverwrittenIn, isMarkedIgnoredIn.
  cbn [addFileToOverwrite filesToOverwrite filesToIgnore].
  now rewrite includes_addFile_same.
Qed.

Ltac unfold_row :=
  unfold actions, present, skip, ignore, overwriteAction, write, remove,
    fileState, description, showsReviewButton, isCreated, isChanged,
    isDeleted, needsExplicitAction, isIgnorable, isIgnored, isOverwritable,
    isOverwritten, wouldOtherwiseBeWritten, changedFromConfig_is_true in *;
  cbn [fileName state overwrite file_exists changedFromConfig changedOnDisk]
    in *.

(** X15.  On the row of a created or removed file that is neither ignored
    nor overwritten, "Keep existing file" is the only action; after it the
    only action is "Write" (created) or "Delete" (removed), and clicking
    that brings the marks back to what they were. *)
Theorem keep_existing_file_can_be_undone (m : Marks) file
    (Hstate : state file = created \/ state file = removed)
    (Hname : fileName file <> "RatOS.cfg"%string)
    (Hign : isMarkedIgnoredIn m file = false)
    (Hover : isOverwritten file (isMarkedOverwrittenIn m file) = false) :
  exists keep undo,
    actionsIn m file = [keep]
    /\ title keep = "Keep existing file"%string
    /\ actionsIn (click keep file m) file = [undo]
    /\ title undo = match state file with
                    | removed => "Delete"
                    | _ => "Write"
                    end%string
    /\ click undo file (click keep file m) = m.
Proof.
  exists (mkAction addFileToIgnore indeterminate "Keep existing file" FileClock).
  exists (match state file with
          | removed => mkAction removeFileToIgnore danger "Delete" Trash
          | _ => mkAction removeFileToIgnore success "Write" Plus
          end).
  assert (Hback :
    removeFileToIgnore (fileName file) (addFileToIgnore (fileName file) m) = m).
  { destruct m as [over ign]. unfold isMarkedIgnoredIn in Hign. cbn in Hign.
    unfold removeFileToIgnore, addFileToIgnore. cbn.
    now rewrite removeFile_addFile. }
  unfold click at 1 3. cbn [action].
  rewrite actionsIn_after_addFileToIgnore. unfold actionsIn. rewrite Hign.
  destruct (isMarkedOverwrittenIn m file) eqn:Hmo.
  { unfold isOverwritten in Hover. discriminate Hover. }
  apply String.eqb_neq in Hname.
  split_file file. unfold isOverwritten in Hover.
  cbn [overwrite file_exists orb] in Hover.
  unfold_row. rewrite Hname, Hover.
  destruct Hstate as [-> | ->]; cbn; unfold click; cbn [action];
    repeat split; try reflexivity; exact Hback.
Qed.

(** X16.  On the row of a changed file that is neither ignored nor
    overwritten, "Accept changes" is offered second; after it the only
    action is "Skip", and clicking that brings the marks back to what they
    were. *)
Theorem accept_changes_can_be_undone (m : Marks) file
    (Hstate : state file = changed)
    (Hname : fileName file <> "RatOS.cfg"%string)
    (Hign : isMarkedIgnoredIn m file = false)
    (Hover : isOverwritten file (isMarkedOverwrittenIn m file) = false) :
  exists keep accept undo,
    actionsIn m file = [keep; accept]
    /\ title keep = "Keep existing file"%string
    /\ title accept = "Accept changes"%string
    /\ actionsIn (click accept file m) file = [undo]
    /\ title undo = "Skip"%string
    /\ click undo file (click accept file m) = m.
Proof.
  exists (mkAction addFileToIgnore
            (if needsExplicitAction file false false
             then (if String.eqb (fileName file) "printer.cfg"
                   then info else danger)
             else indeterminate)
            "Keep existing file" FileClock).
  exists (mkAction addFileToOverwrite warning "Accept changes" Check).
  exists (mkAction removeFileToOverwrite indeterminate "Skip" ChevronLast).
  assert (Hmo : isMarkedOverwrittenIn m file = false).
  { destruct (isMarkedOverwrittenIn m file); [| reflexivity].
    unfold isOverwritten in Hover. discriminate Hover. }
  assert (Hback :
    removeFileToOverwrite (fileName file)
      (addFileToOverwrite (fileName file) m) = m).
  { destruct m as [over ign]. unfold isMarkedOverwrittenIn in Hmo.
    cbn in Hmo. unfold removeFileToOverwrite, addFileToOverwrite. cbn.
    now rewrite removeFile_addFile. }
  unfold click at 1 3. cbn [action].
  rewrite actionsIn_after_addFileToOverwrite. unfold actionsIn.
  rewrite Hign, Hmo. rewrite Hmo in Hover.
  apply String.eqb_neq in Hname.
  split_file file. unfold isOverwritten in Hover.
  cbn [overwrite file_exists orb] in Hover. subst st.
  unfold actions, present, skip, ignore, overwriteAction, write, remove,
    isIgnorable, isIgnored, isOverwritable, isOverwritten.
  cbn [fileName state overwrite file_exists].
  rewrite Hname, Hover. cbn. unfold click; cbn [action].
  repeat split; try reflexivity; exact Hback.
Qed.

(** X17.  The texts of a row agree with its controls.  The row shows the
    prompt "Please review the changes and make a decision." exactly when it
    shows the "Review changes" button; such a row has a danger state circle
    and a yellow "Pending changes" badge.  The state circle is danger
    exactly for rows that ask for a decision and for ignored new files. *)
Theorem review_prompt_matches_review_button file mo mi :
  (description file mo mi
   = "Please review the changes and make a decision."%string
   <-> showsReviewButton file mo mi = true)
  /\ (showsReviewButton file mo mi = true ->
      fileState file mo mi = danger
      /\ badgeColor file = yellow
      /\ badgeText file = "Pending changes"%string)
  /\ (fileState file mo mi = danger
      <-> needsExplicitAction file mo mi = true
          \/ (state file = created /\ mi = true)).
Proof.
  split_file file. unfold badgeColor, badgeText. unfold_row.
  forget_truthy ov. forget_truthy ex. forget_truthy cod.
  destruct (String.eqb name "RatOS.cfg");
    split_flags; cbn;
    (split; [split; intros H; try discriminate H; reflexivity |]);
    (split; [intros H; try discriminate H; repeat split |]);
    (split; [intros H; try discriminate H; auto |
             intros [H | [H1 H2]]; try discriminate; reflexivity]).
Qed.

(** X18.  The colour and the text of the state badge are two readings of
    the same case analysis: each colour goes with one text. *)
Theorem badge_text_follows_badge_color file :
  badgeText file
  = match badgeColor file with
    | sky => "Changed on disk"
    | yellow => "Pending changes"
    | green => "New file"
    | rose => "Deleted"
    | gray => "No updates"
    end%string
  /\ (badgeColor file = yellow \/ badgeColor file = sky
      <-> state file = changed).
Proof.
  split_file file. unfold badgeColor, badgeText.
  cbn [state changedFromConfig].
  destruct st, cfc as [[] |]; cbn; split; try reflexivity;
    split; try (intros [H | H]; discriminate H); try discriminate; auto.
Qed.

(** X19.  A success state circle is only shown for a file the run is going
    to write: a new file that is not ignored, announced as "File will be
    created.", or a changed file that is overwritten and not ignored,
    announced as "File will be backed up and overwritten." *)
Theorem success_means_the_file_is_written file mo mi
    (Hsuccess : fileState file mo mi = success) :
  (isCreated file mi = true
   /\ description file mo mi = "File will be created."%string)
  \/ (isChanged file mo mi = true
      /\ mi = false
      /\ exists more,
           description file mo mi
           = ("File will be backed up and overwritten." ++ more)%string).
Proof.
  split_file file. unfold_row.
  forget_truthy ov. forget_truthy ex. forget_truthy cod.
  destruct (String.eqb name "RatOS.cfg");
    split_flags; cbn in *; try discriminate Hsuccess;
    solve [ left; split; reflexivity
          | right; split; [reflexivity |]; split; [reflexivity |];
            eexists; reflexivity ].
Qed.

End ChangedFileMoreFacts.

(* ================================================================== *)
(** * Concrete rows *)
(* ================================================================== *)

Lemma no_action_is_a_no_op_witness :
  let file := FileChanges.mkFileToWrite "printer.cfg" FileChanges.changed
                (Some false) (Some true) (Some true) (Some false) in
  let m := FileChanges.initialMarks in
  let a := FileChanges.mkAction FileChanges.addFileToIgnore FileChanges.info
             "Keep existing file" FileChanges.FileClock in
  In a (FileChanges.actionsIn m file)
  /\ (FileChanges.isMarkedOverwrittenIn (FileChanges.click a file m) file
      <> FileChanges.isMarkedOverwrittenIn m file
      \/ FileChanges.isMarkedIgnoredIn (FileChanges.click a file m) file
         <> FileChanges.isMarkedIgnoredIn m file).
Proof.
  cbv zeta.
  assert (Hin :
    In (FileChanges.mkAction FileChanges.addFileToIgnore FileChanges.info
          "Keep existing file" FileChanges.FileClock)
       (FileChanges.actionsIn FileChanges.initialMarks
          (FileChanges.mkFileToWrite "printer.cfg" FileChanges.changed
             (Some false) (Some true) (Some true) (Some false)))).
  { left. reflexivity. }
  split; [exact Hin |].
  exact (ChangedFileFacts.no_action_is_a_no_op _ _ _ Hin).
Defined.

Lemma actions_touch_only_their_file_witness :
  let file := FileChanges.mkFileToWrite "printer.cfg" FileChanges.changed
                (Some false) (Some true) (Some true) (Some false) in
  let other := FileChanges.mkFileToWrite "macros.cfg" FileChanges.created
                 None None None None in
  let m := FileChanges.mkMarks [] ["macros.cfg"]%string in
  let a := FileChanges.mkAction FileChanges.addFileToOverwrite
             FileChanges.warning "Accept changes" FileChanges.Check in
  In a (FileChanges.actionsIn m file)
  /\ FileChanges.fileName other <> FileChanges.fileName file
  /\ FileChanges.isMarkedIgnoredIn (FileChanges.click a file m) other
     = FileChanges.isMarkedIgnoredIn m other.
Proof.
  cbv zeta.
  assert (Hin :
    In (FileChanges.mkAction FileChanges.addFileToOverwrite
          FileChanges.warning "Accept changes" FileChanges.Check)
       (FileChanges.actionsIn (FileChanges.mkMarks [] ["macros.cfg"]%string)
          (FileChanges.mkFileToWrite "printer.cfg" FileChanges.changed
             (Some false) (Some true) (Some true) (Some false)))).
  { right. left. reflexivity. }
  assert (Hne : "macros.cfg"%string <> "printer.cfg"%string)
    by discriminate.
  split; [exact Hin |]. split; [exact Hne |].
  exact (proj2
    (@ChangedFileFacts.actions_touch_only_their_file _ _
       (FileChanges.mkFileToWrite "macros.cfg" FileChanges.created
          None None None None) _ Hin Hne)).
Defined.

Lemma explicit_action_is_resolved_by_either_action_witness :
  let file := FileChanges.mkFileToWrite "printer.cfg" FileChanges.changed
                (Some false) (Some true) (Some true) (Some false) in
  let m := FileChanges.initialMarks in
  FileChanges.needsExplicitActionIn m file = true
  /\ FileChanges.fileName file <> "RatOS.cfg"%string
  /\ forall a, In a (FileChanges.actionsIn m file) ->
       FileChanges.needsExplicitActionIn (FileChanges.click a file m) file
       = false.
Proof.
  cbv zeta.
  assert (Hne : "printer.cfg"%string <> "RatOS.cfg"%string) by discriminate.
  split; [reflexivity |]. split; [exact Hne |].
  exact (proj2
    (@ChangedFileFacts.explicit_action_is_resolved_by_either_action
       FileChanges.initialMarks
       (FileChanges.mkFileToWrite "printer.cfg" FileChanges.changed
          (Some false) (Some true) (Some true) (Some false))
       eq_refl Hne)).
Defined.

Lemma keep_existing_file_can_be_undone_witness :
  let file := FileChanges.mkFileToWrite "macros.cfg" FileChanges.created
                None None None None in
  let m := FileChanges.mkMarks ["printer.cfg"]%string [] in
  (FileChanges.state file = FileChanges.created
   \/ FileChanges.state file = FileChanges.removed)
  /\ FileChanges.fileName file <> "RatOS.cfg"%string
  /\ FileChanges.isMarkedIgnoredIn m file = false
  /\ FileChanges.isOverwritten file (FileChanges.isMarkedOverwrittenIn m file)
     = false
  /\ exists keep undo,
       FileChanges.actionsIn m file = [keep]
       /\ FileChanges.actionsIn (FileChanges.click keep file m) file = [undo]
       /\ FileChanges.click undo file (FileChanges.click keep file m) = m.
Proof.
  cbv zeta.
  assert (Hne : "macros.cfg"%string <> "RatOS.cfg"%string) by discriminate.
  split; [left; reflexivity |]. split; [exact Hne |].
  split; [reflexivity |]. split; [reflexivity |].
  destruct (@ChangedFileMoreFacts.keep_existing_file_can_be_undone
              (FileChanges.mkMarks ["printer.cfg"]%string [])
              (FileChanges.mkFileToWrite "macros.cfg" FileChanges.created
                 None None None None)
              (or_introl eq_refl) Hne eq_refl eq_refl)
    as (keep & undo & H1 & _ & H3 & _ & H5).
  exists keep, undo. split; [exact H1 |]. split; [exact H3 | exact H5].
Defined.

Lemma accept_changes_can_be_undone_witness :
  let file := FileChanges.mkFileToWrite "printer.cfg" FileChanges.changed
                (Some false) (Some true) (Some true) (Some false) in
  let m := FileChanges.initialMarks in
  FileChanges.state file = FileChanges.changed
  /\ FileChanges.fileName file <> "RatOS.cfg"%string
  /\ FileChanges.isMarkedIgnoredIn m file = false
  /\ FileChanges.isOverwritten file (FileChanges.isMarkedOverwrittenIn m file)
     = false
  /\ exists keep accept undo,
       FileChanges.actionsIn m file = [keep; accept]
       /\ FileChanges.actionsIn (FileChanges.click accept file m) file
          = [undo]
       /\ FileChanges.click undo file (FileChanges.click accept file m) = m.
Proof.
  cbv zeta.
  assert (Hne : "printer.cfg"%string <> "RatOS.cfg"%string) by discriminate.
  split; [reflexivity |]. split; [exact Hne |].
  split; [reflexivity |]. split; [reflexivity |].
  destruct (@ChangedFileMoreFacts.accept_changes_can_be_undone
              FileChanges.initialMarks
              (FileChanges.mkFileToWrite "printer.cfg" FileChanges.changed
                 (Some false) (Some true) (Some true) (Some false))
              eq_refl Hne eq_refl eq_refl)
    as (keep & accept & undo & H1 & _ & _ & H4 & _ & H6).
  exists keep, accept, undo.
  split; [exact H1 |]. split; [exact H4 | exact H6].
Defined.

Lemma success_means_the_file_is_written_witness :
  let file := FileChanges.mkFileToWrite "macros.cfg" FileChanges.created
                None None None None in
  FileChanges.fileState file false false = FileChanges.success
  /\ ((FileChanges.isCreated file false = true
       /\ FileChanges.description file false false
          = "File will be created."%string)
      \/ (FileChanges.isChanged file false false = true
          /\ false = false
          /\ exists more,
               FileChanges.description file false false
               = ("File will be backed up and overwritten." ++ more)%string)).
Proof.
  cbv zeta. split; [reflexivity |].
  exact (@ChangedFileMoreFacts.success_means_the_file_is_written
           (FileChanges.mkFileToWrite "macros.cfg" FileChanges.created
              None None None None) false false eq_refl).
Defined.
